(** * TrustNet: the role-gated route wrapper and the profile-update route

    A shallow embedding of [protectedRoute] (lib/middleware/protected-route),
    of the [PATCH] profile-update handler it wraps and of the edit-profile
    page that calls it, together with the properties of the authorization
    gate, of the route and of the page.

    JavaScript values are modelled as the source uses them:
    - an optional property is an [option]; the JavaScript [||] on it is
      written out ([js_or_string], [js_or_number]), with the empty string and
      the number 0 counting as absent, as truthiness has it;
    - a JSON payload is a [JSON] value, an object being the list of its
      properties in source order;
    - a call that may throw returns a [Completion]; the rejection of the
      promise of an [async] function is a [Throw];
    - a string stands for the sequence of its code units, so that
      [String.length] is JavaScript's [length];
    - the request is a mutable object: a handler receives its current content
      and hands back the content it leaves behind, next to the state of the
      outside world (database, cache, console). *)

From Stdlib Require Import String List ZArith Bool Lia.
Import ListNotations.
Open Scope string_scope.
Open Scope Z_scope.
Set Warnings "-register-all".

(** ** Values *)

Inductive JSON : Type :=
| JNull
| JBool (b : bool)
| JNum (n : Z)
| JStr (s : string)
| JArr (items : list JSON)
| JObj (props : list (string * JSON)).

(** Property read [o.k]; [None] is JavaScript's [undefined]. *)
Fixpoint get_prop (k : string) (props : list (string * JSON)) : option JSON :=
  match props with
  | [] => None
  | (k', v) :: rest => if String.eqb k k' then Some v else get_prop k rest
  end.

Definition prop (k : string) (j : JSON) : option JSON :=
  match j with
  | JObj props => get_prop k props
  | _ => None
  end.

(** A thrown JavaScript [Error]: its [name] and its [message]. *)
Record Exn : Type := mkExn { exn_name : string; exn_message : string }.

Inductive Completion (A : Type) : Type :=
| Normal (a : A)
| Throw (e : Exn).
Arguments Normal {A} a.
Arguments Throw {A} e.

(** ** Requests and responses *)

(** [req.user], as the gate writes it. *)
Record User : Type := mkUser { user_id : string; user_role : string }.

(** The fields of a [NextRequest] a route can read, and the [user] slot the
    gate adds. *)
Record Request : Type := mkRequest {
  req_method : string;
  req_url : string;
  req_headers : list (string * string);
  req_body : string;
  req_user : option User
}.

(** [req.user = u] *)
Definition set_user (req : Request) (u : User) : Request :=
  {| req_method := req_method req;
     req_url := req_url req;
     req_headers := req_headers req;
     req_body := req_body req;
     req_user := Some u |}.

Record NextResponse : Type := mkResponse { res_body : JSON; res_status : Z }.

Definition RangeError (what : string) : Exn :=
  {| exn_name := "RangeError"; exn_message := what |}.

(** Reading a property of [undefined], or a response that may not have a
    body. *)
Definition TypeError (what : string) : Exn :=
  {| exn_name := "TypeError"; exn_message := what |}.

(** An integer converted to the [unsigned short] of [init.status]. *)
Definition to_unsigned_short (n : Z) : Z := n mod 65536.

(** The statuses of responses that may not have a body. *)
Definition null_body_status (s : Z) : bool :=
  Z.eqb s 101 || Z.eqb s 103 || Z.eqb s 204 || Z.eqb s 205 || Z.eqb s 304.

(** [NextResponse.json(body, init)], as [Response.json] initialises the
    response: without [init.status] the status is 200; a status outside
    200..599 is a [RangeError]; the body being there, a null body status is
    a [TypeError]. *)
Definition NextResponse_json (body : JSON) (init_status : option Z)
    : Completion NextResponse :=
  let s :=
    match init_status with
    | Some n => to_unsigned_short n
    | None => 200
    end in
  if Z.ltb s 200 || Z.ltb 599 s then
    Throw (RangeError "init.status must be in the range of 200 to 599, inclusive.")
  else if null_body_status s then
    Throw (TypeError "Response constructor: Invalid response status code")
  else Normal {| res_body := body; res_status := s |}.

(** The statuses [NextResponse.json] accepts next to a body. *)
Definition accepted_status (n : Z) : bool :=
  let s := to_unsigned_short n in
  Z.leb 200 s && Z.leb s 599 && negb (null_body_status s).

(** [{ success: false, message }] *)
Definition rejection_body (message : string) : JSON :=
  JObj [("success", JBool false); ("message", JStr message)].

(** The response that carries [{ success: false, message }] and [status]. *)
Definition rejection (message : string) (status : Z) : NextResponse :=
  {| res_body := rejection_body message; res_status := status |}.

(** ** The verification collaborator's result *)

(** The payload of a verified token: [decoded.id], [decoded.role]. *)
Record Claims : Type := mkClaims { id : string; role : string }.

(** Modelled from the spec: the result type of [verifyToken], whose module
    (lib/middleware/verify-token) is not part of the sources. The spec gives
    the union [{ decoded: Claims } | { error: string, status: int }] and has
    the gate cope with [error] and [status] being absent from a failure. *)
Inductive AuthResult : Type :=
| Verified (claims : Claims)
| Failed (reason : option string) (code : option Z).

(** [auth.error] *)
Definition error (auth : AuthResult) : option string :=
  match auth with
  | Verified _ => None
  | Failed reason _ => reason
  end.

(** [auth.decoded] *)
Definition decoded (auth : AuthResult) : option Claims :=
  match auth with
  | Verified claims => Some claims
  | Failed _ _ => None
  end.

(** [auth.status] *)
Definition status (auth : AuthResult) : option Z :=
  match auth with
  | Verified _ => None
  | Failed _ code => code
  end.

(** ** JavaScript truthiness and [||] *)

Definition truthy_string (o : option string) : bool :=
  match o with
  | Some s => negb (String.eqb s "")
  | None => false
  end.

Definition truthy_number (o : option Z) : bool :=
  match o with
  | Some n => negb (Z.eqb n 0)
  | None => false
  end.

Definition truthy_object {A : Type} (o : option A) : bool :=
  match o with
  | Some _ => true
  | None => false
  end.

(** [o || d] on an optional string. *)
Definition js_or_string (o : option string) (d : string) : string :=
  match o with
  | Some s => if truthy_string o then s else d
  | None => d
  end.

(** [o || d] on an optional number. *)
Definition js_or_number (o : option Z) (d : Z) : Z :=
  match o with
  | Some n => if truthy_number o then n else d
  | None => d
  end.

(** [roles.includes(r)] on an array of strings. *)
Fixpoint includes (roles : list string) (r : string) : bool :=
  match roles with
  | [] => false
  | x :: rest => if String.eqb x r then true else includes rest r
  end.

(** ** Handlers *)

(** A route handler [(req, ...args) => response]: it may change the request
    object and the world, and it returns or throws. *)
Definition Handler (Arg World : Type) : Type :=
  Request -> list Arg -> World ->
  Completion NextResponse * (Request * World).

(** ** The gate *)

Section Gate.
Context {Arg World : Type}.

(** The token-verification collaborator, [verifyToken(req)]: it reads the
    request and reports; it neither changes the request nor throws. *)
Variable verifyToken : Request -> AuthResult.

Definition protectedRoute (handler : Handler Arg World)
    (allowedRoles : option (list string)) : Handler Arg World :=
  fun req args w =>
    let auth := verifyToken req in
    if truthy_string (error auth) || negb (truthy_object (decoded auth)) then
      (NextResponse_json
         (JObj [("success", JBool false);
                ("message",
                 JStr (js_or_string (error auth) "Authentication failed"))])
         (Some (js_or_number (status auth) 401)),
       (req, w))
    else
      match decoded auth with
      | None =>
          (* [auth.decoded.role] on an absent [decoded] *)
          (Throw
             (TypeError "Cannot read properties of undefined (reading 'role')"),
           (req, w))
      | Some d =>
          if match allowedRoles with
             | Some roles => negb (includes roles (role d))
             | None => false
             end
          then
            (NextResponse_json
               (JObj [("success", JBool false);
                      ("message", JStr "Forbidden: Access denied")])
               (Some 403),
             (req, w))
          else
            handler (set_user req {| user_id := id d; user_role := role d |})
                    args w
      end.
End Gate.

(** ** A recording test double

    [spy h] behaves as [h] and appends every invocation (the request as the
    handler receives it, and the extra arguments) to a log kept beside the
    world. *)

Definition Call (Arg : Type) : Type := (Request * list Arg)%type.

Definition spy {Arg World : Type} (h : Handler Arg World)
    : Handler Arg (World * list (Call Arg)) :=
  fun req args st =>
    let '(w, log) := st in
    let '(c, (req', w')) := h req args w in
    (c, (req', (w', (log ++ [(req, args)])%list))).

Definition outcome_of {A R W : Type} (run : A * (R * W)) : A := fst run.
Definition request_of {A R W : Type} (run : A * (R * W)) : R := fst (snd run).
Definition world_of {A R W : Type} (run : A * (R * W)) : W := snd (snd run).
Definition calls_of {A R W C : Type} (run : A * (R * (W * list C))) : list C :=
  snd (snd (snd run)).

(** ** The gate's decision, in the words of the specification *)

(** No allow-list, or the role is a member of it. *)
Definition role_allowed (allowedRoles : option (list string)) (r : string) : bool :=
  match allowedRoles with
  | Some roles => includes roles r
  | None => true
  end.

(** "A Claims value was produced AND (no role allow-list was specified OR
    Claims.role is a member of it)". *)
Definition claims_and_role_ok (auth : AuthResult)
    (allowedRoles : option (list string)) : bool :=
  match decoded auth with
  | Some d => role_allowed allowedRoles (role d)
  | None => false
  end.

(** The same, for a result that in addition reports no error. *)
Definition authorizes (auth : AuthResult)
    (allowedRoles : option (list string)) : bool :=
  negb (truthy_string (error auth)) && claims_and_role_ok auth allowedRoles.

(** The credential verifies to the Claims [d]: no error is reported and
    [d] is what was decoded. *)
Definition verifies_to (auth : AuthResult) (d : Claims) : Prop :=
  truthy_string (error auth) = false /\ decoded auth = Some d.

(** The role enumeration of the schema:
    [CREATE TYPE "UserRole" AS ENUM ('CUSTOMER', 'BUSINESS_OWNER', 'ADMIN')]. *)
Inductive UserRole : Type := CUSTOMER | BUSINESS_OWNER | ADMIN.

Definition role_name (r : UserRole) : string :=
  match r with
  | CUSTOMER => "CUSTOMER"
  | BUSINESS_OWNER => "BUSINESS_OWNER"
  | ADMIN => "ADMIN"
  end.

(** The role string names a member of the enumeration. *)
Definition is_UserRole (s : string) : bool :=
  includes (map role_name [CUSTOMER; BUSINESS_OWNER; ADMIN]) s.

(** The "Authorization Decision" of the specification. *)
Inductive Decision : Type :=
| Authorized (c : Claims)
| Rejected (reason : string) (status_code : Z).

(** Steps 2 to 4 of the contract, read off a verification result; a result
    that reports an error is a failed verification. *)
Definition gate_decision (auth : AuthResult)
    (allowedRoles : option (list string)) : Decision :=
  match decoded auth with
  | Some d =>
      if truthy_string (error auth) then
        Rejected (js_or_string (error auth) "Authentication failed")
                 (js_or_number (status auth) 401)
      else if role_allowed allowedRoles (role d) then Authorized d
      else Rejected "Forbidden: Access denied" 403
  | None =>
      Rejected (js_or_string (error auth) "Authentication failed")
               (js_or_number (status auth) 401)
  end.

(** ** The profile-update route *)

(** A row of the [users] table, as [prisma.user.update] returns it; dates
    are carried in their serialized form. *)
Record UserRow : Type := mkUserRow {
  row_id : string;
  row_name : string;
  row_phone : string;
  row_email : option string;
  row_role : string;
  row_createdAt : string;
  row_updatedAt : string
}.

(** The [email] property after validation: absent, [null] or a string. *)
Inductive EmailField : Type :=
| EmailUndefined
| EmailNull
| EmailStr (s : string).

(** What [updateSchema.parse] returns. *)
Record UpdateInput : Type := mkUpdateInput {
  in_name : option string;
  in_phone : option string;
  in_email : EmailField
}.

(** The [data] of the database update; [upd_email = None] is [null]. *)
Record UpdateData : Type := mkUpdateData {
  upd_name : option string;
  upd_phone : option string;
  upd_email : option string
}.

(** Computations over the outside world that return or throw. *)
Module Eff.
Definition M (World A : Type) : Type := World -> Completion A * World.

Definition ret {World A : Type} (a : A) : M World A :=
  fun w => (Normal a, w).

Definition bind {World A B : Type} (m : M World A) (k : A -> M World B)
    : M World B :=
  fun w =>
    match m w with
    | (Normal a, w') => k a w'
    | (Throw e, w') => (Throw e, w')
    end.

(** A call that touches nothing outside. *)
Definition lift {World A : Type} (c : Completion A) : M World A :=
  fun w => (c, w).

(** [try { body } catch (error) { handler }] *)
Definition try_catch {World A : Type} (body : M World A)
    (handler : Exn -> M World A) : M World A :=
  fun w =>
    match body w with
    | (Normal a, w') => (Normal a, w')
    | (Throw e, w') => handler e w'
    end.
End Eff.

Notation "x <- m ;; k" := (Eff.bind m (fun x => k))
  (at level 61, m at next level, right associativity).

(** [String(error)] for an [Error] object. *)
Definition String_of_error (e : Exn) : string :=
  if String.eqb (exn_name e) "" then exn_message e
  else if String.eqb (exn_message e) "" then exn_name e
  else exn_name e ++ ": " ++ exn_message e.

(** [z.string().min(n, ...).optional()] on a property read: [None] is a
    validation issue. *)
Definition z_string_min_optional (n : nat) (v : option JSON)
    : option (option string) :=
  match v with
  | None => Some None
  | Some (JStr s) => if Nat.leb n (String.length s) then Some (Some s) else None
  | Some _ => None
  end.

Section ProfileUpdate.
Context {Arg World : Type}.

(** Collaborators of the route. *)
(** [JSON.parse] behind [req.json()]: it throws on a malformed body. *)
Variable JSON_parse : string -> Completion JSON.
(** The format test behind [z.string().email(...)]. *)
Variable is_email : string -> bool.
(** The message a [ZodError] carries for a rejected input. *)
Variable zod_message : JSON -> string.
(** [prisma.user.update({ where: { id }, data })] *)
Variable prisma_user_update :
  string -> UpdateData -> Eff.M World UserRow.
(** [redis.del(key)] *)
Variable redis_del : string -> Eff.M World Z.
(** [console.error(label, error)] *)
Variable console_error : string -> Exn -> World -> World.

Variable verifyToken : Request -> AuthResult.

(** [req.json()] *)
Definition req_json (req : Request) : Completion JSON :=
  JSON_parse (req_body req).

(** [req.user.id] *)
Definition req_user_id (req : Request) : Completion string :=
  match req_user req with
  | Some u => Normal (user_id u)
  | None =>
      Throw (TypeError "Cannot read properties of undefined (reading 'id')")
  end.

(** [z.string().email("Invalid email").optional().or(z.literal("")).nullable()] *)
Definition z_email (v : option JSON) : option EmailField :=
  match v with
  | None => Some EmailUndefined
  | Some JNull => Some EmailNull
  | Some (JStr s) =>
      if is_email s then Some (EmailStr s)
      else if String.eqb s "" then Some (EmailStr "")
      else None
  | Some _ => None
  end.

Definition ZodError (input : JSON) : Exn :=
  {| exn_name := "ZodError"; exn_message := zod_message input |}.

(** [updateSchema.parse(body)]: the object schema, unknown keys dropped,
    then the refinement [data.name || data.phone]. *)
Definition updateSchema_parse (body : JSON) : Completion UpdateInput :=
  match body with
  | JObj props =>
      match z_string_min_optional 2 (get_prop "name" props),
            z_string_min_optional 10 (get_prop "phone" props),
            z_email (get_prop "email" props) with
      | Some n, Some p, Some e =>
          if truthy_string n || truthy_string p then
            Normal {| in_name := n; in_phone := p; in_email := e |}
          else Throw (ZodError body)
      | _, _, _ => Throw (ZodError body)
      end
  | _ => Throw (ZodError body)
  end.

(** [{ ...data, email: data.email === "" || data.email === undefined
       ? null : data.email }] *)
Definition updateData_of (data : UpdateInput) : UpdateData :=
  {| upd_name := in_name data;
     upd_phone := in_phone data;
     upd_email :=
       match in_email data with
       | EmailUndefined => None
       | EmailNull => None
       | EmailStr s => if String.eqb s "" then None else Some s
       end |}.

Definition json_of_option_string (o : option string) : JSON :=
  match o with
  | Some s => JStr s
  | None => JNull
  end.

(** The body of the response built at the end of the [try] block. *)
Definition update_succeeded_body (updatedUser : UserRow) : JSON :=
  JObj [("success", JBool true);
        ("message", JStr "Profile updated successfully");
        ("user",
         JObj [("id", JStr (row_id updatedUser));
               ("name", JStr (row_name updatedUser));
               ("phone", JStr (row_phone updatedUser));
               ("email", json_of_option_string (row_email updatedUser));
               ("role", JStr (row_role updatedUser));
               ("createdAt", JStr (row_createdAt updatedUser));
               ("updatedAt", JStr (row_updatedAt updatedUser))])].

(** That response: no status is given, so it is sent with 200. *)
Definition update_succeeded (updatedUser : UserRow) : NextResponse :=
  {| res_body := update_succeeded_body updatedUser; res_status := 200 |}.

(** The body of the response built in the [catch] block. *)
Definition update_failed_body (error : Exn) : JSON :=
  JObj [("success", JBool false);
        ("message", JStr "Update failed");
        ("error",
         JStr (js_or_string (Some (exn_message error))
                            (String_of_error error)))].

(** That response, sent with status 500. *)
Definition update_failed (error : Exn) : NextResponse :=
  {| res_body := update_failed_body error; res_status := 500 |}.

(** The body of the [try] block. *)
Definition profile_update_try (req : Request) : Eff.M World NextResponse :=
  userId <- Eff.lift (req_user_id req) ;;
  body <- Eff.lift (req_json req) ;;
  data <- Eff.lift (updateSchema_parse body) ;;
  updatedUser <- prisma_user_update userId (updateData_of data) ;;
  _ <- redis_del "users:list" ;;
  Eff.lift (NextResponse_json (update_succeeded_body updatedUser) None).

(** The [catch] block. *)
Definition profile_update_catch (error : Exn) : Eff.M World NextResponse :=
  fun w => (NextResponse_json (update_failed_body error) (Some 500),
            console_error "Update error:" error w).

(** The handler passed to [protectedRoute]. *)
Definition profile_update : Handler Arg World :=
  fun req _ w =>
    let '(c, w') :=
      Eff.try_catch (profile_update_try req) profile_update_catch w in
    (c, (req, w')).

Definition PATCH : Handler Arg World :=
  protectedRoute verifyToken profile_update None.
End ProfileUpdate.

(** ** The edit-profile page, caller of the route

    The page keeps [formData] and [errors] as plain objects; both are lists
    of properties here, read with [get_prop]. *)

(** [{ ...o, [k]: v }], and the assignment [o[k] = v]: an existing property
    keeps its place and takes the new value, a new one goes last. *)
Fixpoint set_prop (k : string) (v : JSON) (props : list (string * JSON))
    : list (string * JSON) :=
  match props with
  | [] => [(k, v)]
  | (k', v') :: rest =>
      if String.eqb k k' then (k, v) :: rest
      else (k', v') :: set_prop k v rest
  end.

(** Truthiness of a property read. *)
Definition truthy_json (o : option JSON) : bool :=
  match o with
  | None => false
  | Some JNull => false
  | Some (JBool b) => b
  | Some (JNum n) => negb (Z.eqb n 0)
  | Some (JStr s) => negb (String.eqb s "")
  | Some (JArr _) => true
  | Some (JObj _) => true
  end.

(** [o || d] on a property read. *)
Definition js_or_json (o : option JSON) (d : JSON) : JSON :=
  match o with
  | Some v => if truthy_json o then v else d
  | None => d
  end.

(** [data.k] on a parsed reply: reading a property of [null] throws, the
    other values that are not objects have no such property. *)
Definition member (k : string) (data : JSON) : Completion (option JSON) :=
  match data with
  | JNull => Throw (TypeError "Cannot read properties of null")
  | JObj props => Normal (get_prop k props)
  | _ => Normal None
  end.

(** [z.string().min(n, ...)] on a property read: [None] is a validation
    issue. *)
Definition z_string_min (n : nat) (v : option JSON) : option string :=
  match v with
  | Some (JStr s) => if Nat.leb n (String.length s) then Some s else None
  | _ => None
  end.

(** What [userSchema.parse] returns. *)
Record UserFormData : Type := mkUserFormData {
  form_name : string;
  form_phone : string;
  form_email : option string
}.

(** One issue of a [ZodError]: its [path] and its [message]. *)
Record Issue : Type := mkIssue {
  issue_path : list string;
  issue_message : string
}.

Inductive Parsed (A : Type) : Type :=
| Valid (a : A)
| ZodIssues (issues : list Issue).
Arguments Valid {A} a.
Arguments ZodIssues {A} issues.

Inductive RouterAction : Type :=
| Push (href : string)
| Refresh.

(** The state of the page, and what it asked of the router so far. *)
Record Page : Type := mkPage {
  formData : list (string * JSON);
  errors : list (string * JSON);
  saving : bool;
  navigation : list RouterAction
}.

(** The value [JSON.stringify(validatedData)] stands for. *)
Definition payload_of (v : UserFormData) : JSON :=
  JObj ([("name", JStr (form_name v)); ("phone", JStr (form_phone v))]
        ++ match form_email v with
           | Some e => [("email", JStr e)]
           | None => []
           end)%list.

(** [issues.forEach((err) => { if (err.path[0]) newErrors[err.path[0]] =
    err.message; })] from an empty [newErrors]. *)
Definition add_issue (newErrors : list (string * JSON)) (err : Issue)
    : list (string * JSON) :=
  match issue_path err with
  | k :: _ =>
      if truthy_string (Some k)
      then set_prop k (JStr (issue_message err)) newErrors
      else newErrors
  | [] => newErrors
  end.

Definition errors_of_issues (issues : list Issue) : list (string * JSON) :=
  fold_left add_issue issues [].

(** [handleChange]: the event carries the [name] and the [value] of the
    input; [errors] is the state the handler was rendered with. *)
Definition handleChange (name value : string) (p : Page) : Page :=
  {| formData := set_prop name (JStr value) (formData p);
     errors :=
       if truthy_json (get_prop name (errors p))
       then set_prop name (JStr "") (errors p)
       else errors p;
     saving := saving p;
     navigation := navigation p |}.

Section EditProfilePage.
Context {World : Type}.

(** The format test behind [z.string().email(...)]. *)
Variable is_email : string -> bool.
(** The issues a [ZodError] lists for a rejected form. *)
Variable userSchema_issues : list (string * JSON) -> list Issue.
(** [fetch("/api/users/update", { method: "PATCH", ..., body })] and
    [res.json()]: the parsed reply, or what either of them throws. *)
Variable send : JSON -> Eff.M World JSON.

(** [z.string().email("Invalid email").optional().or(z.literal(""))] *)
Definition z_email_or_empty (v : option JSON) : option (option string) :=
  match v with
  | None => Some None
  | Some (JStr s) =>
      if is_email s then Some (Some s)
      else if String.eqb s "" then Some (Some "")
      else None
  | Some _ => None
  end.

(** [userSchema.parse(formData)] *)
Definition userSchema_parse (data : list (string * JSON))
    : Parsed UserFormData :=
  match z_string_min 2 (get_prop "name" data),
        z_string_min 10 (get_prop "phone" data),
        z_email_or_empty (get_prop "email" data) with
  | Some n, Some p, Some e =>
      Valid {| form_name := n; form_phone := p; form_email := e |}
  | _, _, _ => ZodIssues (userSchema_issues data)
  end.

Definition with_errors (p : Page) (errs : list (string * JSON)) : Page :=
  {| formData := formData p;
     errors := errs;
     saving := saving p;
     navigation := navigation p |}.

Definition unexpected : list (string * JSON) :=
  [("submit", JStr "An unexpected error occurred")].

(** The [try] and [catch] blocks of [handleSubmit], run on the page as
    [setSaving(true); setErrors({})] left it. *)
Definition submit_attempt (p : Page) (w : World) : Page * World :=
  match userSchema_parse (formData p) with
  | ZodIssues issues => (with_errors p (errors_of_issues issues), w)
  | Valid validatedData =>
      match send (payload_of validatedData) w with
      | (Throw _, w') => (with_errors p unexpected, w')
      | (Normal data, w') =>
          match member "success" data with
          | Throw _ => (with_errors p unexpected, w')
          | Normal success =>
              if truthy_json success then
                ({| formData := formData p;
                    errors := errors p;
                    saving := saving p;
                    navigation :=
                      (navigation p ++ [Push "/profile"; Refresh])%list |},
                 w')
              else
                match member "message" data with
                | Throw _ => (with_errors p unexpected, w')
                | Normal message =>
                    (with_errors p
                       [("submit", js_or_json message (JStr "Update failed"))],
                     w')
                end
          end
      end
  end.

(** [handleSubmit]: the [finally] block ends it with [setSaving(false)]. *)
Definition handleSubmit (p : Page) (w : World) : Page * World :=
  let started :=
    {| formData := formData p;
       errors := [];
       saving := true;
       navigation := navigation p |} in
  let '(q, w') := submit_attempt started w in
  ({| formData := formData q;
      errors := errors q;
      saving := false;
      navigation := navigation q |}, w').
End EditProfilePage.

(** ** Test doubles and the scenarios of the specification *)

Module Scenario.
(** A collaborator that answers [auth] whatever the request. *)
Definition answering (auth : AuthResult) : Request -> AuthResult :=
  fun _ => auth.

Definition a_request : Request :=
  {| req_method := "PATCH";
     req_url := "/api/users/update";
     req_headers := [("content-type", "application/json")];
     req_body := "{}";
     req_user := None |}.

Definition ok_response : NextResponse :=
  {| res_body := JObj [("success", JBool true)]; res_status := 200 |}.

(** A handler that answers [ok_response] and touches nothing. *)
Definition ok_handler : Handler unit unit :=
  fun req _ w => (Normal ok_response, (req, w)).

(** A handler that throws. *)
Definition failing_handler : Handler unit unit :=
  fun req _ w =>
    (Throw {| exn_name := "Error"; exn_message := "boom" |}, (req, w)).

Definition customer_u1 : AuthResult :=
  Verified (mkClaims "u1" "CUSTOMER").
Definition customer_u2 : AuthResult :=
  Verified (mkClaims "u2" "CUSTOMER").
Definition guest_u3 : AuthResult :=
  Verified (mkClaims "u3" "GUEST").
Definition no_credential : AuthResult := Failed None None.
Definition expired : AuthResult :=
  Failed (Some "Token expired") (Some 403).
(** Failures whose suggested status no response can carry. *)
Definition expired_99 : AuthResult := Failed (Some "Token expired") (Some 99).
Definition expired_204 : AuthResult := Failed (Some "Token expired") (Some 204).

(** Stand-ins for the collaborators of the profile-update route. The world
    is the list of the effects so far, latest first. *)
Definition bodies : list (string * JSON) :=
  [("short-name", JObj [("name", JStr "A")]);
   ("new-name", JObj [("name", JStr "Asha"); ("email", JStr "")])].

Definition stub_JSON_parse (text : string) : Completion JSON :=
  match get_prop text bodies with
  | Some j => Normal j
  | None =>
      Throw {| exn_name := "SyntaxError";
               exn_message := "Unexpected end of JSON input" |}
  end.

Definition stub_is_email (s : string) : bool := String.eqb s "asha@example.com".

Definition stub_zod_message (input : JSON) : string := "Invalid input".

Definition stub_row (userId : string) (data : UpdateData) : UserRow :=
  {| row_id := userId;
     row_name := match upd_name data with Some n => n | None => "Old" end;
     row_phone := match upd_phone data with Some p => p | None => "0000000000" end;
     row_email := upd_email data;
     row_role := "CUSTOMER";
     row_createdAt := "2025-01-01T00:00:00.000Z";
     row_updatedAt := "2025-01-02T00:00:00.000Z" |}.

Definition stub_update (userId : string) (data : UpdateData)
    : Eff.M (list string) UserRow :=
  fun w => (Normal (stub_row userId data), "update" :: w).

(** A database that has no such row. *)
Definition stub_update_missing (userId : string) (data : UpdateData)
    : Eff.M (list string) UserRow :=
  fun w =>
    (Throw {| exn_name := "PrismaClientKnownRequestError";
              exn_message := "Record to update not found." |}, w).

Definition stub_del (key : string) : Eff.M (list string) Z :=
  fun w => (Normal 1, "del" :: w).

Definition stub_console (label : string) (e : Exn) (w : list string)
    : list string :=
  "console.error" :: w.

Definition stub_route : Handler unit (list string) :=
  profile_update stub_JSON_parse stub_is_email stub_zod_message
    stub_update stub_del stub_console.

Definition short_name_request : Request :=
  {| req_method := "PATCH";
     req_url := "/api/users/update";
     req_headers := [];
     req_body := "short-name";
     req_user := Some {| user_id := "u1"; user_role := "CUSTOMER" |} |}.
End Scenario.

(** Stand-ins for the page and for requests that reach the database. *)
Module PageScenario.
Definition a_form : list (string * JSON) :=
  [("name", JStr "Asha"); ("phone", JStr "9876543210"); ("email", JStr "")].

Definition a_short_form : list (string * JSON) :=
  [("name", JStr "A"); ("phone", JStr "9876543210"); ("email", JStr "")].

Definition a_page : Page :=
  {| formData := a_form;
     errors := [("name", JStr "Name must be at least 2 characters")];
     saving := false;
     navigation := [] |}.

Definition a_short_page : Page :=
  {| formData := a_short_form; errors := []; saving := false;
     navigation := [] |}.

Definition name_issue : Issue :=
  {| issue_path := ["name"];
     issue_message := "Name must be at least 2 characters" |}.

Definition stub_issues (data : list (string * JSON)) : list Issue :=
  [name_issue].

(** A server that answers with the success reply of the route. *)
Definition stub_send_ok (payload : JSON) : Eff.M (list string) JSON :=
  fun w =>
    (Normal (JObj [("success", JBool true);
                   ("message", JStr "Profile updated successfully")]),
     "PATCH" :: w).

(** A server that answers with the failure reply of the route. *)
Definition stub_send_failed (payload : JSON) : Eff.M (list string) JSON :=
  fun w =>
    (Normal (JObj [("success", JBool false);
                   ("message", JStr "Update failed");
                   ("error", JStr "Invalid input")]),
     "PATCH" :: w).

Definition new_name_request : Request :=
  {| req_method := "PATCH";
     req_url := "/api/users/update";
     req_headers := [];
     req_body := "new-name";
     req_user := None |}.

(** A collaborator that reads the bearer credential and nothing else. *)
Definition stub_verifyToken (req : Request) : AuthResult :=
  match req_headers req with
  | [("authorization", "Bearer admin")] =>
      Verified (mkClaims "u9" "ADMIN")
  | _ => Failed (Some "Token missing") (Some 401)
  end.

Definition admin_request : Request :=
  {| req_method := "GET";
     req_url := "/api/admin";
     req_headers := [("authorization", "Bearer admin")];
     req_body := "";
     req_user := None |}.
End PageScenario.

(** ** Properties of the gate *)

Section GateFacts.
Context {Arg World : Type}.
Variable verifyToken : Request -> AuthResult.

Lemma spy_calls (h : Handler Arg World) req args w log :
  calls_of (spy h req args (w, log)) = (log ++ [(req, args)])%list.
Proof.
  unfold calls_of, spy.
  destruct (h req args w) as [c [req' w']]; reflexivity.
Qed.

(** What [NextResponse.json] makes of a status. *)
Lemma NextResponse_json_accepted (body : JSON) (n : Z) :
  accepted_status n = true ->
  NextResponse_json body (Some n) =
  Normal {| res_body := body; res_status := to_unsigned_short n |}.
Proof.
  unfold accepted_status, NextResponse_json.
  rewrite (Z.ltb_antisym 200), (Z.ltb_antisym _ 599).
  destruct (Z.leb 200 (to_unsigned_short n)); [|discriminate].
  destruct (Z.leb (to_unsigned_short n) 599); [|discriminate].
  destruct (null_body_status (to_unsigned_short n)); [discriminate|].
  reflexivity.
Qed.

Lemma NextResponse_json_refused (body : JSON) (n : Z) :
  accepted_status n = false ->
  exists e,
    NextResponse_json body (Some n) = Throw e /\
    (exn_name e = "RangeError" \/ exn_name e = "TypeError").
Proof.
  unfold accepted_status, NextResponse_json.
  rewrite (Z.ltb_antisym 200), (Z.ltb_antisym _ 599).
  destruct (Z.leb 200 (to_unsigned_short n)); simpl;
    [|intros _; eexists; split; [reflexivity | left; reflexivity]].
  destruct (Z.leb (to_unsigned_short n) 599); simpl;
    [|intros _; eexists; split; [reflexivity | left; reflexivity]].
  destruct (null_body_status (to_unsigned_short n)); [|discriminate].
  intros _; eexists; split; [reflexivity | right; reflexivity].
Qed.

Lemma to_unsigned_short_small (n : Z) :
  0 <= n < 65536 -> to_unsigned_short n = n.
Proof.
  intros H. unfold to_unsigned_short. apply Z.mod_small. exact H.
Qed.

(** A result with decoded Claims reports no error and suggests no status. *)
Lemma decoded_no_error (auth : AuthResult) (d : Claims) :
  decoded auth = Some d -> error auth = None /\ status auth = None.
Proof.
  destruct auth; simpl; [auto | discriminate].
Qed.

(** The source's tests and the specification's decision agree. *)
Lemma protectedRoute_decision (h : Handler Arg World) roles req args w :
  protectedRoute verifyToken h roles req args w =
  match gate_decision (verifyToken req) roles with
  | Authorized d =>
      h (set_user req {| user_id := id d; user_role := role d |}) args w
  | Rejected reason code =>
      (NextResponse_json (rejection_body reason) (Some code), (req, w))
  end.
Proof.
  unfold protectedRoute, gate_decision, role_allowed, rejection_body.
  destruct (decoded (verifyToken req)) as [d|] eqn:Hd; simpl.
  - rewrite orb_false_r.
    destruct (truthy_string (error (verifyToken req))); [reflexivity|].
    destruct roles as [l|]; [|reflexivity].
    destruct (includes l (role d)); reflexivity.
  - rewrite orb_true_r; reflexivity.
Qed.

Lemma gate_decision_unverified auth roles :
  truthy_string (error auth) = true \/ decoded auth = None ->
  gate_decision auth roles =
  Rejected (js_or_string (error auth) "Authentication failed")
           (js_or_number (status auth) 401).
Proof.
  unfold gate_decision; intros [H | H]; rewrite H.
  - destruct (decoded auth); reflexivity.
  - reflexivity.
Qed.

Lemma gate_decision_verified auth roles d :
  verifies_to auth d ->
  gate_decision auth roles =
  if role_allowed roles (role d) then Authorized d
  else Rejected "Forbidden: Access denied" 403.
Proof.
  unfold gate_decision; intros [He Hd]; rewrite Hd, He; reflexivity.
Qed.

Lemma authorizes_decision auth roles :
  authorizes auth roles = true <->
  exists d, gate_decision auth roles = Authorized d.
Proof.
  unfold authorizes, claims_and_role_ok, gate_decision.
  destruct (decoded auth) as [d|]; destruct (truthy_string (error auth));
    simpl; try destruct (role_allowed roles (role d)); split;
    try discriminate; try (intros [u Hu]; discriminate); eauto.
Qed.

Lemma authorizes_verifies auth roles :
  authorizes auth roles = true <->
  exists d, verifies_to auth d /\ role_allowed roles (role d) = true.
Proof.
  unfold authorizes, claims_and_role_ok, verifies_to.
  destruct (decoded auth) as [d|]; destruct (truthy_string (error auth));
    simpl; split; try discriminate; try (intros [d' [[? ?] ?]]; discriminate).
  - intros H; exists d; auto.
  - intros [d' [[_ Hd] H]]; inversion Hd; subst; exact H.
Qed.

Lemma not_authorizes_rejected auth roles :
  authorizes auth roles = false ->
  exists reason code, gate_decision auth roles = Rejected reason code.
Proof.
  intros H.
  destruct (gate_decision auth roles) as [u | reason code] eqn:Hg.
  - assert (authorizes auth roles = true)
      by (apply authorizes_decision; eauto).
    congruence.
  - eauto.
Qed.
(** On a result that reports no error, having Claims with an admitted role
    is all the gate asks for. *)
Lemma authorizes_without_error auth roles :
  truthy_string (error auth) = false ->
  authorizes auth roles = claims_and_role_ok auth roles.
Proof.
  unfold authorizes. intros H; rewrite H; reflexivity.
Qed.

Lemma outside_UserRole_no_name (s : string) (r : UserRole) :
  is_UserRole s = false -> String.eqb (role_name r) s = false.
Proof.
  unfold is_UserRole; simpl map; unfold includes.
  destruct (String.eqb "CUSTOMER" s) eqn:E1; [discriminate|].
  destruct (String.eqb "BUSINESS_OWNER" s) eqn:E2; [discriminate|].
  destruct (String.eqb "ADMIN" s) eqn:E3; [discriminate|].
  intros _. destruct r; assumption.
Qed.

Lemma outside_UserRole_not_included (s : string) (rs : list UserRole) :
  is_UserRole s = false -> includes (map role_name rs) s = false.
Proof.
  intros H. induction rs as [|r rs IH]; simpl; [reflexivity|].
  rewrite (outside_UserRole_no_name s r H). exact IH.
Qed.

Lemma run_authorized (h : Handler Arg World) roles req args w :
  authorizes (verifyToken req) roles = true ->
  exists d, decoded (verifyToken req) = Some d /\
    protectedRoute verifyToken h roles req args w =
    h (set_user req {| user_id := id d; user_role := role d |}) args w.
Proof.
  intros H. apply authorizes_verifies in H. destruct H as [d [Hv Hr]].
  exists d. split; [apply Hv|].
  rewrite protectedRoute_decision.
  rewrite (gate_decision_verified _ roles d Hv), Hr. reflexivity.
Qed.

Lemma run_rejected (h : Handler Arg World) roles req args w :
  authorizes (verifyToken req) roles = false ->
  exists reason code,
    gate_decision (verifyToken req) roles = Rejected reason code /\
    protectedRoute verifyToken h roles req args w =
    (NextResponse_json (rejection_body reason) (Some code), (req, w)).
Proof.
  intros H. apply not_authorizes_rejected in H.
  destruct H as [reason [code Hg]]. exists reason, code.
  split; [exact Hg|].
  rewrite protectedRoute_decision, Hg. reflexivity.
Qed.

(** Whatever [NextResponse.json] returns for a rejection body says
    [success: false]. *)
Lemma rejection_body_returned (reason : string) (code : Z)
    (resp : NextResponse) :
  NextResponse_json (rejection_body reason) (Some code) = Normal resp ->
  res_body resp = rejection_body reason /\
  res_status resp = to_unsigned_short code /\
  accepted_status code = true.
Proof.
  intros H. destruct (accepted_status code) eqn:E.
  - rewrite (NextResponse_json_accepted _ _ E) in H.
    inversion H; subst. auto.
  - destruct (NextResponse_json_refused (rejection_body reason) code E)
      as [e [He _]].
    rewrite He in H. discriminate H.
Qed.

(** When verification fails, the decision is the authentication rejection. *)
Lemma gate_decision_failed auth roles :
  decoded auth = None ->
  gate_decision auth roles =
  Rejected
    match error auth with
    | Some s => if String.eqb s "" then "Authentication failed" else s
    | None => "Authentication failed"
    end
    match status auth with
    | Some n => if Z.eqb n 0 then 401 else n
    | None => 401
    end.
Proof.
  intros Hd. rewrite gate_decision_unverified by (right; exact Hd).
  unfold js_or_string, js_or_number, truthy_string, truthy_number.
  destruct (error auth) as [s|]; destruct (status auth) as [n|];
    try destruct (String.eqb s ""); try destruct (Z.eqb n 0); reflexivity.
Qed.
End GateFacts.

Section GateClaims.
Context {Arg World : Type}.
Variable verifyToken : Request -> AuthResult.
Variable handler : Handler Arg World.


(** C2 (as amended). When the collaborator returns no decoded Claims, the
    wrapped handler is not called and request and world are untouched,
    whatever [allowedRoles]; the guarded handler answers through
    [NextResponse.json] with the message "Authentication failed", or the
    collaborator's error string when one is given (and is not empty), and
    with status 401, or the collaborator's status when one is given (and is
    not 0). That rejection is returned, with the status taken modulo 65536,
    when the status is one [NextResponse.json] accepts (200..599 other than
    204, 205, 304); otherwise the call throws a RangeError or TypeError. *)
Theorem unverified_request_rejected
    (allowedRoles : option (list string)) (req : Request)
    (args : list Arg) (w : World) :
  decoded (verifyToken req) = None ->
  let message :=
    match error (verifyToken req) with
    | Some s => if String.eqb s "" then "Authentication failed" else s
    | None => "Authentication failed"
    end in
  let code :=
    match status (verifyToken req) with
    | Some n => if Z.eqb n 0 then 401 else n
    | None => 401
    end in
  let run :=
    protectedRoute verifyToken (spy handler) allowedRoles req args (w, []) in
  calls_of run = [] /\ request_of run = req /\ world_of run = (w, []) /\
  (accepted_status code = true ->
   outcome_of run =
   Normal {| res_body :=
               JObj [("success", JBool false); ("message", JStr message)];
             res_status := to_unsigned_short code |}) /\
  (200 <= code <= 599 -> to_unsigned_short code = code) /\
  (status (verifyToken req) = None ->
   outcome_of run =
   Normal {| res_body :=
               JObj [("success", JBool false); ("message", JStr message)];
             res_status := 401 |}) /\
  (accepted_status code = false ->
   exists e, outcome_of run = Throw e /\
     (exn_name e = "RangeError" \/ exn_name e = "TypeError")).
Proof.
  intros Hd message code run.
  assert (Hrun : run =
    (NextResponse_json (rejection_body message) (Some code), (req, (w, [])))).
  { unfold run. rewrite protectedRoute_decision.
    rewrite (gate_decision_failed _ allowedRoles Hd). reflexivity. }
  rewrite Hrun. unfold calls_of, request_of, world_of, outcome_of. simpl.
  split; [reflexivity|]. split; [reflexivity|]. split; [reflexivity|].
  split; [|split; [|split]].
  - intros Hacc. rewrite (NextResponse_json_accepted _ _ Hacc). reflexivity.
  - intros H. apply to_unsigned_short_small. lia.
  - intros Hs. unfold code. rewrite Hs. reflexivity.
  - intros Hacc. apply NextResponse_json_refused. exact Hacc.
Qed.

(** C3. When the credential verifies to a Claims value and the given
    allow-list (empty or not) does not contain the Claims role, the guarded
    handler returns the rejection [{ success: false, message: "Forbidden:
    Access denied" }] with status 403 and the wrapped handler is not
    invoked. *)
Theorem role_outside_allow_list_forbidden
    (roles : list string) (d : Claims) (req : Request)
    (args : list Arg) (w : World) :
  verifies_to (verifyToken req) d ->
  includes roles (role d) = false ->
  let run :=
    protectedRoute verifyToken (spy handler) (Some roles) req args (w, []) in
  run = (Normal (rejection "Forbidden: Access denied" 403), (req, (w, []))) /\
  calls_of run = [] /\
  (forall resp, outcome_of run = Normal resp ->
     res_status resp = 403 /\
     prop "success" (res_body resp) = Some (JBool false) /\
     prop "message" (res_body resp) = Some (JStr "Forbidden: Access denied")).
Proof.
  intros Hv Hr run.
  assert (Hrun : run =
    (Normal (rejection "Forbidden: Access denied" 403), (req, (w, [])))).
  { unfold run. rewrite protectedRoute_decision.
    rewrite (gate_decision_verified _ (Some roles) d Hv).
    simpl. rewrite Hr. reflexivity. }
  rewrite Hrun. split; [reflexivity|]. split; [reflexivity|].
  intros resp H. inversion H; subst. repeat split.
Qed.

(** C4. When the credential verifies to a Claims value and no allow-list
    is given or the Claims role is a member of it, the gate writes
    [{ id, role }] of the decoded Claims onto the request, invokes the
    wrapped handler exactly once on that request with the extra arguments,
    and returns what the handler returns, a thrown failure included. *)
Theorem authorized_request_delegated
    (allowedRoles : option (list string)) (d : Claims) (req : Request)
    (args : list Arg) (w : World) :
  verifies_to (verifyToken req) d ->
  role_allowed allowedRoles (role d) = true ->
  let bound := set_user req {| user_id := id d; user_role := role d |} in
  protectedRoute verifyToken handler allowedRoles req args w =
    handler bound args w /\
  calls_of
    (protectedRoute verifyToken (spy handler) allowedRoles req args (w, []))
    = [(bound, args)] /\
  req_user bound = Some {| user_id := id d; user_role := role d |}.
Proof.
  intros Hv Hr bound. repeat split.
  - rewrite protectedRoute_decision.
    rewrite (gate_decision_verified _ allowedRoles d Hv), Hr. reflexivity.
  - rewrite protectedRoute_decision.
    rewrite (gate_decision_verified _ allowedRoles d Hv), Hr.
    rewrite spy_calls. reflexivity.
Qed.

(** C5. Without an allow-list every request whose credential verifies to
    a Claims value is authorized, whatever its role string; with an
    allow-list of roles of the enumeration, a Claims role string that names
    none of CUSTOMER, BUSINESS_OWNER, ADMIN is not a member and the request
    is rejected. *)
Theorem unknown_role_policy
    (d : Claims) (req : Request) (args : list Arg) (w : World) :
  verifies_to (verifyToken req) d ->
  protectedRoute verifyToken handler None req args w =
    handler (set_user req {| user_id := id d; user_role := role d |}) args w
  /\
  forall rs : list UserRole,
    is_UserRole (role d) = false ->
    includes (map role_name rs) (role d) = false /\
    protectedRoute verifyToken handler (Some (map role_name rs)) req args w =
      (Normal (rejection "Forbidden: Access denied" 403), (req, w)).
Proof.
  intros Hv. split.
  - rewrite protectedRoute_decision.
    rewrite (gate_decision_verified _ None d Hv). reflexivity.
  - intros rs Hout.
    pose proof (outside_UserRole_not_included (role d) rs Hout) as Hr.
    split; [exact Hr|].
    rewrite protectedRoute_decision.
    rewrite (gate_decision_verified _ (Some (map role_name rs)) d Hv).
    simpl. rewrite Hr. reflexivity.
Qed.


(** C7 (as amended). An authorization failure is returned as a normal value
    with [success: false], never thrown, whenever the status sent is one
    [NextResponse.json] accepts: always for the 403 rejection and for the
    default 401, and for a collaborator's status in 200..599 other than 204,
    205, 304 (taken modulo 65536). For any other status of the collaborator
    the guarded handler throws the RangeError or TypeError of
    [NextResponse.json], with request and world untouched. Every other throw
    of the guarded handler was thrown by the wrapped handler after
    authorization. *)
Theorem rejection_returned_when_status_accepted
    (allowedRoles : option (list string)) (req : Request)
    (args : list Arg) (w : World) :
  let auth := verifyToken req in
  let run := protectedRoute verifyToken handler allowedRoles req args w in
  (authorizes auth allowedRoles = false ->
   accepted_status (js_or_number (status auth) 401) = true ->
   exists resp,
     run = (Normal resp, (req, w)) /\
     prop "success" (res_body resp) = Some (JBool false)) /\
  (authorizes auth allowedRoles = false ->
   status auth = None ->
   exists resp,
     run = (Normal resp, (req, w)) /\
     (res_status resp = 401 \/ res_status resp = 403)) /\
  (forall d, decoded auth = Some d ->
     role_allowed allowedRoles (role d) = false ->
     run = (Normal (rejection "Forbidden: Access denied" 403), (req, w))) /\
  (authorizes auth allowedRoles = false ->
   accepted_status (js_or_number (status auth) 401) = false ->
   exists e,
     run = (Throw e, (req, w)) /\
     (exn_name e = "RangeError" \/ exn_name e = "TypeError")) /\
  (forall e st, run = (Throw e, st) ->
     (authorizes auth allowedRoles = true /\
      exists u, handler (set_user req u) args w = (Throw e, st)) \/
     (authorizes auth allowedRoles = false /\
      accepted_status (js_or_number (status auth) 401) = false /\
      st = (req, w) /\
      (exn_name e = "RangeError" \/ exn_name e = "TypeError"))).
Proof.
  intros auth run.
  assert (Hver : forall d, decoded auth = Some d ->
            role_allowed allowedRoles (role d) = false ->
            run = (Normal (rejection "Forbidden: Access denied" 403),
                   (req, w))).
  { intros d Hd Hr. unfold run. rewrite protectedRoute_decision. fold auth.
    assert (Hv : verifies_to auth d).
    { split; [|exact Hd]. destruct (decoded_no_error auth d Hd) as [He _].
      rewrite He. reflexivity. }
    rewrite (gate_decision_verified auth allowedRoles d Hv), Hr.
    reflexivity. }
  assert (Hfail : authorizes auth allowedRoles = false ->
            (exists d, decoded auth = Some d /\
               role_allowed allowedRoles (role d) = false) \/
            (decoded auth = None /\
             run = (NextResponse_json
                      (rejection_body
                         (js_or_string (error auth) "Authentication failed"))
                      (Some (js_or_number (status auth) 401)), (req, w)))).
  { intros Ha. destruct (decoded auth) as [d|] eqn:Hd.
    - left. exists d. split; [reflexivity|].
      destruct (role_allowed allowedRoles (role d)) eqn:Hr; [|reflexivity].
      assert (authorizes auth allowedRoles = true).
      { apply authorizes_verifies. exists d. split; [|exact Hr].
        split; [|exact Hd].
        destruct (decoded_no_error auth d Hd) as [He _]. rewrite He.
        reflexivity. }
      congruence.
    - right. split; [reflexivity|]. unfold run.
      rewrite protectedRoute_decision. fold auth.
      rewrite gate_decision_unverified by (right; exact Hd). reflexivity. }
  split; [|split; [|split; [exact Hver|split]]].
  - intros Ha Hacc. destruct (Hfail Ha) as [[d [Hd Hr]] | [Hd Hrun]].
    + rewrite (Hver d Hd Hr). eexists. split; reflexivity.
    + rewrite Hrun, (NextResponse_json_accepted _ _ Hacc).
      eexists. split; reflexivity.
  - intros Ha Hs. destruct (Hfail Ha) as [[d [Hd Hr]] | [Hd Hrun]].
    + rewrite (Hver d Hd Hr). eexists. split; [reflexivity|].
      right; reflexivity.
    + rewrite Hrun, Hs. eexists. split; [reflexivity|]. left; reflexivity.
  - intros Ha Hacc. destruct (Hfail Ha) as [[d [Hd Hr]] | [Hd Hrun]].
    + destruct (decoded_no_error auth d Hd) as [_ Hs].
      rewrite Hs in Hacc. discriminate Hacc.
    + rewrite Hrun.
      destruct (NextResponse_json_refused
                  (rejection_body
                     (js_or_string (error auth) "Authentication failed"))
                  _ Hacc) as [e [He Hname]].
      rewrite He. exists e. split; [reflexivity | exact Hname].
  - intros e st H.
    destruct (authorizes auth allowedRoles) eqn:Ha.
    + left. split; [reflexivity|].
      destruct (run_authorized verifyToken handler _ req args w Ha)
        as [d [_ Hrun]].
      fold run in Hrun. rewrite Hrun in H. eauto.
    + right. split; [reflexivity|].
      destruct (Hfail eq_refl) as [[d [Hd Hr]] | [Hd Hrun]].
      * rewrite (Hver d Hd Hr) in H. discriminate H.
      * rewrite Hrun in H.
        destruct (accepted_status (js_or_number (status auth) 401)) eqn:Hacc.
        -- rewrite (NextResponse_json_accepted _ _ Hacc) in H. discriminate H.
        -- destruct (NextResponse_json_refused
                       (rejection_body
                          (js_or_string (error auth) "Authentication failed"))
                       _ Hacc) as [e' [He' Hname]].
           rewrite He' in H. inversion H; subst.
           split; [reflexivity|]. split; [reflexivity | exact Hname].
Qed.

(** C8. The decision is a function of the verification result and of
    [allowedRoles] alone: two invocations with the same verification result
    and the same allow-list, whatever their handlers, requests, extra
    arguments and worlds, are both rejected with the same message and
    status, or both hand over to their handler once with the same
    binding. *)
Theorem decision_deterministic
    (h1 h2 : Handler Arg World) (allowedRoles : option (list string))
    (req1 req2 : Request) (args1 args2 : list Arg) (w1 w2 : World) :
  verifyToken req1 = verifyToken req2 ->
  let run1 :=
    protectedRoute verifyToken (spy h1) allowedRoles req1 args1 (w1, []) in
  let run2 :=
    protectedRoute verifyToken (spy h2) allowedRoles req2 args2 (w2, []) in
  match gate_decision (verifyToken req1) allowedRoles with
  | Rejected reason code =>
      run1 = (NextResponse_json (rejection_body reason) (Some code),
              (req1, (w1, []))) /\
      run2 = (NextResponse_json (rejection_body reason) (Some code),
              (req2, (w2, []))) /\
      outcome_of run1 = outcome_of run2 /\
      (accepted_status code = true ->
       outcome_of run1 =
       Normal (rejection reason (to_unsigned_short code)))
  | Authorized d =>
      let bound := {| user_id := id d; user_role := role d |} in
      calls_of run1 = [(set_user req1 bound, args1)] /\
      calls_of run2 = [(set_user req2 bound, args2)]
  end.
Proof.
  intros Heq run1 run2. unfold run1, run2.
  rewrite !protectedRoute_decision. rewrite <- Heq.
  destruct (gate_decision (verifyToken req1) allowedRoles) as [u | reason code].
  - rewrite !spy_calls. split; reflexivity.
  - split; [reflexivity|]. split; [reflexivity|]. split; [reflexivity|].
    intros Hacc. unfold outcome_of. simpl.
    rewrite (NextResponse_json_accepted _ _ Hacc). reflexivity.
Qed.

(** C9 (as amended). With an empty allow-list no request reaches the
    wrapped handler, and request and world stay as they were: a request
    whose credential verifies to a Claims value gets status 403 and
    "Forbidden: Access denied", so the empty list means "deny all
    authenticated callers", not "no restriction"; a request whose
    verification yields no Claims is answered by the authentication check
    instead, by default with status 401 and "Authentication failed", and
    whatever is returned for it carries the collaborator's message and
    status. *)
Theorem empty_allow_list_denies_all
    (req : Request) (args : list Arg) (w : World) :
  let auth := verifyToken req in
  let run :=
    protectedRoute verifyToken (spy handler) (Some []) req args (w, []) in
  calls_of run = [] /\ request_of run = req /\ world_of run = (w, []) /\
  (forall d, decoded auth = Some d ->
     outcome_of run =
     Normal {| res_body :=
                 JObj [("success", JBool false);
                       ("message", JStr "Forbidden: Access denied")];
               res_status := 403 |}) /\
  (decoded auth = None -> error auth = None -> status auth = None ->
   outcome_of run =
   Normal {| res_body :=
               JObj [("success", JBool false);
                     ("message", JStr "Authentication failed")];
             res_status := 401 |}) /\
  (decoded auth = None ->
   forall resp, outcome_of run = Normal resp ->
     res_status resp = to_unsigned_short (js_or_number (status auth) 401) /\
     res_body resp =
       JObj [("success", JBool false);
             ("message",
              JStr (js_or_string (error auth) "Authentication failed"))]).
Proof.
  intros auth run.
  assert (Ha : authorizes auth (Some []) = false).
  { unfold authorizes, claims_and_role_ok.
    destruct (decoded auth); simpl; apply andb_false_r. }
  destruct (run_rejected verifyToken (spy handler) _ req args (w, []) Ha)
    as [reason [code [Hg Hrun]]].
  fold run in Hrun. fold auth in Hg.
  split; [rewrite Hrun; reflexivity|].
  split; [rewrite Hrun; reflexivity|].
  split; [rewrite Hrun; reflexivity|].
  split; [|split].
  - intros d Hd.
    assert (Hv : verifies_to auth d).
    { split; [|exact Hd]. destruct (decoded_no_error auth d Hd) as [He _].
      rewrite He. reflexivity. }
    rewrite (gate_decision_verified auth (Some []) d Hv) in Hg.
    simpl in Hg. inversion Hg; subst. rewrite Hrun. reflexivity.
  - intros Hd He Hs.
    rewrite gate_decision_unverified in Hg by (right; exact Hd).
    rewrite He, Hs in Hg. simpl in Hg. inversion Hg; subst.
    rewrite Hrun. reflexivity.
  - intros Hd resp H.
    rewrite gate_decision_unverified in Hg by (right; exact Hd).
    inversion Hg; subst. rewrite Hrun in H. unfold outcome_of in H.
    simpl in H. apply rejection_body_returned in H.
    destruct H as [Hb [Hst _]]. split; [exact Hst | exact Hb].
Qed.
End GateClaims.

(** ** Properties of the profile-update route *)

Section ProfileUpdateClaims.
Context {Arg World : Type}.
Variable JSON_parse : string -> Completion JSON.
Variable is_email : string -> bool.
Variable zod_message : JSON -> string.
Variable prisma_user_update : string -> UpdateData -> Eff.M World UserRow.
Variable redis_del : string -> Eff.M World Z.
Variable console_error : string -> Exn -> World -> World.
Variable verifyToken : Request -> AuthResult.

Local Abbreviation try_block :=
  (profile_update_try JSON_parse is_email zod_message
     prisma_user_update redis_del).
Local Abbreviation route :=
  (@profile_update Arg World JSON_parse is_email zod_message
     prisma_user_update redis_del console_error).
Local Abbreviation parse := (updateSchema_parse is_email zod_message).

Lemma profile_update_returns (req : Request) (args : list Arg) (w : World) :
  exists resp w', route req args w = (Normal resp, (req, w')).
Proof.
  unfold profile_update, Eff.try_catch, profile_update_catch.
  destruct (try_block req w) as [[resp | e] w'].
  - exists resp, w'. reflexivity.
  - exists (update_failed e), (console_error "Update error:" e w').
    reflexivity.
Qed.

Lemma profile_update_caught (req : Request) (args : list Arg) (w w' : World)
    (e : Exn) :
  try_block req w = (Throw e, w') ->
  route req args w =
  (Normal (update_failed e), (req, console_error "Update error:" e w')).
Proof.
  intros H. unfold profile_update, Eff.try_catch, profile_update_catch.
  rewrite H. reflexivity.
Qed.

(** C10. The profile-update handler never throws: it always returns a
    response; whatever the [try] block throws (a malformed JSON body, a
    schema-validation failure, a database or cache error) comes back as a
    response with status 500, [success: false] and message "Update failed",
    validation failures included; and so the gated [PATCH] route returns a
    response for every request whose credential verifies. *)
Theorem profile_update_failures_are_500
    (req : Request) (args : list Arg) (w : World) :
  (exists resp w', route req args w = (Normal resp, (req, w'))) /\
  (forall e w', try_block req w = (Throw e, w') ->
     exists resp,
       route req args w =
         (Normal resp, (req, console_error "Update error:" e w')) /\
       res_status resp = 500 /\
       prop "success" (res_body resp) = Some (JBool false) /\
       prop "message" (res_body resp) = Some (JStr "Update failed")) /\
  (forall u, req_user req = Some u ->
     (forall e,
        JSON_parse (req_body req) = Throw e ->
        try_block req w = (Throw e, w)) /\
     (forall body e,
        JSON_parse (req_body req) = Normal body ->
        parse body = Throw e ->
        try_block req w = (Throw e, w)) /\
     (forall body data e w',
        JSON_parse (req_body req) = Normal body ->
        parse body = Normal data ->
        prisma_user_update (user_id u) (updateData_of data) w = (Throw e, w') ->
        try_block req w = (Throw e, w')) /\
     (forall body data row e w' w'',
        JSON_parse (req_body req) = Normal body ->
        parse body = Normal data ->
        prisma_user_update (user_id u) (updateData_of data) w
          = (Normal row, w') ->
        redis_del "users:list" w' = (Throw e, w'') ->
        try_block req w = (Throw e, w''))) /\
  (forall d, decoded (verifyToken req) = Some d ->
   exists resp st,
     PATCH JSON_parse is_email zod_message prisma_user_update redis_del
       console_error verifyToken req args w = (Normal resp, st)).
Proof.
  split; [apply profile_update_returns|]. split; [|split].
  - intros e w' H. exists (update_failed e).
    split; [exact (profile_update_caught req args w w' e H)|].
    repeat split.
  - intros u Hu.
    unfold profile_update_try, Eff.bind, Eff.lift, Eff.ret,
      req_user_id, req_json.
    rewrite Hu. repeat split.
    + intros e Hj. rewrite Hj. reflexivity.
    + intros body e Hj Hp. rewrite Hj, Hp. reflexivity.
    + intros body data e w' Hj Hp Hdb. rewrite Hj, Hp, Hdb. reflexivity.
    + intros body data row e w' w'' Hj Hp Hdb Hr.
      rewrite Hj, Hp, Hdb, Hr. reflexivity.
  - intros d Hd. unfold PATCH. rewrite protectedRoute_decision.
    assert (Hv : verifies_to (verifyToken req) d).
    { split; [|exact Hd].
      destruct (decoded_no_error (verifyToken req) d Hd) as [He _].
      rewrite He. reflexivity. }
    rewrite (gate_decision_verified _ None d Hv). simpl.
    destruct (profile_update_returns
                (set_user req {| user_id := id d; user_role := role d |})
                args w)
      as [resp [w' H]]. eauto.
Qed.
End ProfileUpdateClaims.

(** ** The scenarios, evaluated *)

Import Scenario.

(** Scenario 1: Claims [u1]/CUSTOMER, no allow-list: the handler runs on a
    request bound to [{ id: "u1", role: "CUSTOMER" }] and its response comes
    back. *)
Example scenario_1 :
  protectedRoute (answering customer_u1) (spy ok_handler) None
    a_request [] (tt, []) =
  (Normal ok_response,
   (set_user a_request (mkUser "u1" "CUSTOMER"),
    (tt, [(set_user a_request (mkUser "u1" "CUSTOMER"), [])]))).
Proof. reflexivity. Qed.

(** Scenario 2: Claims [u2]/CUSTOMER against the allow-list [ADMIN]. *)
Example scenario_2 :
  protectedRoute (answering customer_u2) (spy ok_handler) (Some ["ADMIN"])
    a_request [] (tt, []) =
  (Normal (rejection "Forbidden: Access denied" 403), (a_request, (tt, []))).
Proof. reflexivity. Qed.

(** Scenario 3: no credential, allow-list [ADMIN]. *)
Example scenario_3 :
  protectedRoute (answering no_credential) (spy ok_handler) (Some ["ADMIN"])
    a_request [] (tt, []) =
  (Normal (rejection "Authentication failed" 401), (a_request, (tt, []))).
Proof. reflexivity. Qed.

(** A collaborator's status that no response can carry: 99 is out of range,
    204 allows no body, 65939 is 403 modulo 65536. *)
Example statuses_of_the_collaborator :
  outcome_of
    (protectedRoute (answering (Failed (Some "Token expired") (Some 65939)))
       (spy ok_handler) None a_request [] (tt, []))
    = Normal (rejection "Token expired" 403) /\
  (exists e,
     outcome_of
       (protectedRoute (answering expired_99) (spy ok_handler) None
          a_request [] (tt, [])) = Throw e /\
     exn_name e = "RangeError") /\
  (exists e,
     outcome_of
       (protectedRoute (answering expired_204) (spy ok_handler) None
          a_request [] (tt, [])) = Throw e /\
     exn_name e = "TypeError").
Proof.
  split; [reflexivity|].
  split; eexists; split; reflexivity.
Qed.

(** A name of one character fails the schema and comes back as a 500. *)
Example short_name_is_500 :
  stub_route short_name_request [] [] =
  (Normal
     {| res_body :=
          JObj [("success", JBool false);
                ("message", JStr "Update failed");
                ("error", JStr "Invalid input")];
        res_status := 500 |},
   (short_name_request, ["console.error"])).
Proof. reflexivity. Qed.

(** ** Instances of the theorems and the counterexamples *)



(** For a failure whose suggested status is 99 no rejection with that
    status, nor any other, is returned. *)
Lemma status_99_is_not_returned :
  ~ exists resp,
      outcome_of
        (protectedRoute (answering expired_99) (spy ok_handler)
           (Some ["ADMIN"]) a_request [] (tt, [])) = Normal resp /\
      res_status resp = 99.
Proof.
  intros [resp [H _]]. discriminate H.
Qed.

Lemma unverified_request_rejected_witness :
  outcome_of
    (protectedRoute (answering no_credential) (spy ok_handler)
       (Some ["ADMIN"]) a_request [] (tt, [])) =
  Normal {| res_body :=
              JObj [("success", JBool false);
                    ("message", JStr "Authentication failed")];
            res_status := 401 |}.
Proof.
  exact (proj1 (proj2 (proj2 (proj2 (proj2 (proj2
           (unverified_request_rejected (answering no_credential) ok_handler
              (Some ["ADMIN"]) a_request [] tt eq_refl))))))
           eq_refl).
Defined.

Lemma role_outside_allow_list_forbidden_witness :
  protectedRoute (answering customer_u2) (spy ok_handler) (Some ["ADMIN"])
    a_request [] (tt, []) =
  (Normal (rejection "Forbidden: Access denied" 403), (a_request, (tt, []))).
Proof.
  exact (proj1
           (role_outside_allow_list_forbidden (answering customer_u2)
              ok_handler ["ADMIN"] (mkClaims "u2" "CUSTOMER") a_request [] tt
              (conj eq_refl eq_refl) eq_refl)).
Defined.

Lemma authorized_request_delegated_witness :
  protectedRoute (answering customer_u1) failing_handler (Some ["CUSTOMER"])
    a_request [] tt =
  failing_handler (set_user a_request (mkUser "u1" "CUSTOMER")) [] tt.
Proof.
  exact (proj1
           (authorized_request_delegated (answering customer_u1)
              failing_handler (Some ["CUSTOMER"]) (mkClaims "u1" "CUSTOMER")
              a_request [] tt (conj eq_refl eq_refl) eq_refl)).
Defined.

Lemma unknown_role_policy_witness :
  protectedRoute (answering guest_u3) ok_handler None a_request [] tt =
    ok_handler (set_user a_request (mkUser "u3" "GUEST")) [] tt /\
  protectedRoute (answering guest_u3) ok_handler (Some ["ADMIN"])
    a_request [] tt =
    (Normal (rejection "Forbidden: Access denied" 403), (a_request, tt)).
Proof.
  destruct (unknown_role_policy (answering guest_u3) ok_handler
              (mkClaims "u3" "GUEST") a_request [] tt (conj eq_refl eq_refl))
    as [Hnone Hsome].
  split; [exact Hnone|].
  exact (proj2 (Hsome [ADMIN] eq_refl)).
Defined.


(** A failure whose suggested status is 204: an authorization failure, and
    the guarded handler throws. *)
Lemma status_204_is_thrown :
  authorizes expired_204 (Some ["ADMIN"]) = false /\
  ~ exists resp,
      outcome_of
        (protectedRoute (answering expired_204) ok_handler (Some ["ADMIN"])
           a_request [] tt) = Normal resp.
Proof.
  split; [reflexivity|]. intros [resp H]. discriminate H.
Qed.

Lemma rejection_returned_when_status_accepted_witness :
  exists resp,
    protectedRoute (answering expired) failing_handler (Some ["ADMIN"])
      a_request [] tt = (Normal resp, (a_request, tt)) /\
    prop "success" (res_body resp) = Some (JBool false).
Proof.
  exact (proj1 (rejection_returned_when_status_accepted (answering expired)
                  failing_handler (Some ["ADMIN"]) a_request [] tt)
           eq_refl eq_refl).
Defined.

Lemma decision_deterministic_witness :
  protectedRoute (answering expired) (spy ok_handler) None
    a_request [] (tt, []) =
    (Normal (rejection "Token expired" 403), (a_request, (tt, []))) /\
  protectedRoute (answering expired) (spy failing_handler) None
    short_name_request [tt] (tt, []) =
    (Normal (rejection "Token expired" 403), (short_name_request, (tt, []))).
Proof.
  destruct (decision_deterministic (answering expired) ok_handler
              failing_handler None a_request short_name_request [] [tt] tt tt
              eq_refl) as [H1 [H2 _]].
  split; [exact H1 | exact H2].
Defined.

(** With an empty allow-list a request without credential is answered 401
    "Authentication failed", not 403 "Forbidden: Access denied". *)
Lemma empty_allow_list_unverified_is_401 :
  outcome_of
    (protectedRoute (answering no_credential) (spy ok_handler) (Some [])
       a_request [] (tt, []))
  <> Normal (rejection "Forbidden: Access denied" 403).
Proof.
  intros H. cbv in H. discriminate H.
Qed.

Lemma empty_allow_list_denies_all_witness :
  outcome_of
    (protectedRoute (answering customer_u1) (spy ok_handler) (Some [])
       a_request [] (tt, [])) =
  Normal {| res_body :=
              JObj [("success", JBool false);
                    ("message", JStr "Forbidden: Access denied")];
            res_status := 403 |}.
Proof.
  exact (proj1 (proj2 (proj2 (proj2
           (empty_allow_list_denies_all (answering customer_u1) ok_handler
              a_request [] tt))))
           (mkClaims "u1" "CUSTOMER") eq_refl).
Defined.

Lemma profile_update_failures_are_500_witness :
  exists resp,
    stub_route short_name_request [] [] =
      (Normal resp, (short_name_request, ["console.error"])) /\
    res_status resp = 500 /\
    prop "success" (res_body resp) = Some (JBool false) /\
    prop "message" (res_body resp) = Some (JStr "Update failed").
Proof.
  exact (proj1 (proj2
           (profile_update_failures_are_500 stub_JSON_parse stub_is_email
              stub_zod_message stub_update stub_del stub_console
              (answering customer_u1) short_name_request [] []))
           (ZodError stub_zod_message (JObj [("name", JStr "A")])) []
           eq_refl).
Defined.

(** ** Further properties of the update schema and of the route *)

Section UpdateSchemaFacts.
Variable is_email : string -> bool.
Variable zod_message : JSON -> string.

Local Abbreviation parse := (updateSchema_parse is_email zod_message).

Lemma z_string_min_optional_length (n : nat) (v : option JSON) (s : string) :
  z_string_min_optional n v = Some (Some s) ->
  v = Some (JStr s) /\ (n <= String.length s)%nat.
Proof.
  unfold z_string_min_optional.
  destruct v as [[| | |s'| |]|]; try discriminate.
  destruct (Nat.leb n (String.length s')) eqn:E; [|discriminate].
  intros H. inversion H; subst. split; [reflexivity|].
  apply Nat.leb_le. exact E.
Qed.

Lemma z_string_min_optional_absent (n : nat) (v : option JSON) :
  z_string_min_optional n v = Some None -> v = None.
Proof.
  unfold z_string_min_optional.
  destruct v as [[| | |s'| |]|]; try discriminate; [|reflexivity].
  destruct (Nat.leb n (String.length s')); discriminate.
Qed.

Lemma updateSchema_parse_inv (body : JSON) (data : UpdateInput) :
  parse body = Normal data ->
  exists props,
    body = JObj props /\
    z_string_min_optional 2 (get_prop "name" props) = Some (in_name data) /\
    z_string_min_optional 10 (get_prop "phone" props) = Some (in_phone data) /\
    z_email is_email (get_prop "email" props) = Some (in_email data) /\
    truthy_string (in_name data) || truthy_string (in_phone data) = true.
Proof.
  unfold updateSchema_parse.
  destruct body as [| | | | |props]; try discriminate.
  destruct (z_string_min_optional 2 (get_prop "name" props)) as [n|] eqn:En;
    [|discriminate].
  destruct (z_string_min_optional 10 (get_prop "phone" props)) as [p|] eqn:Ep;
    [|discriminate].
  destruct (z_email is_email (get_prop "email" props)) as [e|] eqn:Ee;
    [|discriminate].
  destruct (truthy_string n || truthy_string p) eqn:E; [|discriminate].
  intros H. inversion H; subst. simpl. exists props.
  repeat split; assumption.
Qed.

(** X1. The schema reads [name], [phone] and [email] and nothing else: a body
    that differs from an accepted one in other properties only (a [role] or
    an [id], say) is accepted with the same result. *)
Theorem updateSchema_reads_three_properties
    (props1 props2 : list (string * JSON)) (data : UpdateInput) :
  get_prop "name" props1 = get_prop "name" props2 ->
  get_prop "phone" props1 = get_prop "phone" props2 ->
  get_prop "email" props1 = get_prop "email" props2 ->
  parse (JObj props1) = Normal data ->
  parse (JObj props2) = Normal data.
Proof.
  unfold updateSchema_parse. intros Hn Hp He. rewrite Hn, Hp, He.
  destruct (z_string_min_optional 2 (get_prop "name" props2)) as [n|];
    [|discriminate].
  destruct (z_string_min_optional 10 (get_prop "phone" props2)) as [p|];
    [|discriminate].
  destruct (z_email is_email (get_prop "email" props2)) as [e|];
    [|discriminate].
  destruct (truthy_string n || truthy_string p); [|discriminate].
  intros H; exact H.
Qed.

(** X2. What the route hands to the database after validation: a name of at
    least 2 characters or none, a phone of at least 10 characters or none,
    at least one of the two, and an email that is [null] or a non-empty
    string in email format. *)
Theorem update_data_is_valid (body : JSON) (data : UpdateInput) :
  parse body = Normal data ->
  let u := updateData_of data in
  (forall n, upd_name u = Some n -> (2 <= String.length n)%nat) /\
  (forall p, upd_phone u = Some p -> (10 <= String.length p)%nat) /\
  (upd_name u <> None \/ upd_phone u <> None) /\
  (forall e, upd_email u = Some e -> e <> "" /\ is_email e = true).
Proof.
  intros H u. apply updateSchema_parse_inv in H.
  destruct H as [props [_ [Hn [Hp [He Hor]]]]].
  unfold u, updateData_of; simpl.
  split; [|split; [|split]].
  - intros n E. rewrite E in Hn.
    apply z_string_min_optional_length in Hn. apply Hn.
  - intros p E. rewrite E in Hp.
    apply z_string_min_optional_length in Hp. apply Hp.
  - destruct (in_name data); [left; discriminate|].
    destruct (in_phone data); [right; discriminate|].
    discriminate Hor.
  - intros e E.
    destruct (in_email data) as [| |s]; try discriminate.
    destruct (String.eqb s "") eqn:Es; [discriminate|].
    inversion E; subst e.
    split.
    + intros ->. discriminate Es.
    + unfold z_email in He.
      destruct (get_prop "email" props) as [[| | |s'| |]|]; try discriminate.
      destruct (is_email s') eqn:Em.
      * inversion He; subst. exact Em.
      * destruct (String.eqb s' ""); [|discriminate].
        inversion He; subst. discriminate Es.
Qed.

(** X3. An update that carries neither [name] nor [phone] is rejected, whatever
    else it carries: the email cannot be changed on its own. *)
Theorem update_needs_name_or_phone (props : list (string * JSON)) :
  get_prop "name" props = None ->
  get_prop "phone" props = None ->
  parse (JObj props) = Throw (ZodError zod_message (JObj props)).
Proof.
  intros Hn Hp. unfold updateSchema_parse. rewrite Hn, Hp. simpl.
  destruct (z_email is_email (get_prop "email" props)); reflexivity.
Qed.

(** X4. Optional is not lenient: a [name] that is present but is not a string of
    at least 2 characters is rejected even next to a valid [phone], and so
    is a [phone] that is present but is not a string of at least 10. *)
Theorem update_rejects_present_invalid_field
    (props : list (string * JSON)) (v : JSON) :
  (get_prop "name" props = Some v /\
   forall s, v = JStr s -> (String.length s < 2)%nat) \/
  (get_prop "phone" props = Some v /\
   forall s, v = JStr s -> (String.length s < 10)%nat) ->
  parse (JObj props) = Throw (ZodError zod_message (JObj props)).
Proof.
  assert (Hbad : forall n w,
    (forall s, w = JStr s -> (String.length s < n)%nat) ->
    z_string_min_optional n (Some w) = None).
  { intros n w Hw. unfold z_string_min_optional.
    destruct w as [| | |s| |]; try reflexivity.
    destruct (Nat.leb n (String.length s)) eqn:E; [|reflexivity].
    apply Nat.leb_le in E. specialize (Hw s eq_refl). lia. }
  unfold updateSchema_parse. intros [[Hg Hv] | [Hg Hv]]; rewrite Hg.
  - rewrite (Hbad 2%nat v Hv). reflexivity.
  - rewrite (Hbad 10%nat v Hv).
    destruct (z_string_min_optional 2 (get_prop "name" props)); reflexivity.
Qed.

(** X5. An email sent as [""] or as [null], or not sent, is stored as [null]. *)
Theorem cleared_email_is_null (props : list (string * JSON))
    (data : UpdateInput) :
  get_prop "email" props = None \/
  get_prop "email" props = Some JNull \/
  get_prop "email" props = Some (JStr "") ->
  parse (JObj props) = Normal data ->
  upd_email (updateData_of data) = None.
Proof.
  intros Hc H. apply updateSchema_parse_inv in H.
  destruct H as [props' [Hb [_ [_ [He _]]]]].
  inversion Hb; subst props'.
  unfold updateData_of; simpl.
  destruct Hc as [Hc | [Hc | Hc]]; rewrite Hc in He; simpl in He.
  - inversion He as [E]. reflexivity.
  - inversion He as [E]. reflexivity.
  - destruct (is_email ""); inversion He as [E]; reflexivity.
Qed.
End UpdateSchemaFacts.

Section RouteFacts.
Context {Arg World : Type}.
Variable JSON_parse : string -> Completion JSON.
Variable is_email : string -> bool.
Variable zod_message : JSON -> string.
Variable redis_del : string -> Eff.M World Z.
Variable console_error : string -> Exn -> World -> World.
Variable verifyToken : Request -> AuthResult.

Local Abbreviation route_with db :=
  (@PATCH Arg World JSON_parse is_email zod_message db redis_del
     console_error verifyToken).

(** X6. The gated route, end to end: for a credential that verifies to Claims
    [d], whatever the role, and a body the schema accepts, the row updated
    is the one whose id is [d]'s, the cache key [users:list] is deleted on
    the world the update left, and the answer is the 200 response built from
    the updated row, on the request bound to [d]. *)
Theorem PATCH_updates_the_callers_row
    (db : string -> UpdateData -> Eff.M World UserRow)
    (d : Claims) (req : Request) (args : list Arg)
    (body : JSON) (data : UpdateInput) (row : UserRow) (n : Z)
    (w w' w'' : World) :
  verifies_to (verifyToken req) d ->
  JSON_parse (req_body req) = Normal body ->
  updateSchema_parse is_email zod_message body = Normal data ->
  db (id d) (updateData_of data) w = (Normal row, w') ->
  redis_del "users:list" w' = (Normal n, w'') ->
  route_with db req args w =
    (Normal (update_succeeded row),
     (set_user req {| user_id := id d; user_role := role d |}, w'')) /\
  res_status (update_succeeded row) = 200 /\
  prop "success" (res_body (update_succeeded row)) = Some (JBool true).
Proof.
  intros Hv Hj Hp Hdb Hr. split; [|split; reflexivity].
  unfold PATCH. rewrite protectedRoute_decision.
  rewrite (gate_decision_verified _ None d Hv). simpl.
  unfold profile_update, Eff.try_catch, profile_update_try, Eff.bind,
    Eff.lift, Eff.ret, req_user_id, req_json. simpl.
  rewrite Hj, Hp, Hdb, Hr. reflexivity.
Qed.

(** X7. The route touches no row but the caller's: two databases that behave
    alike on the id of the decoded Claims make the route behave alike. *)
Theorem PATCH_depends_on_the_callers_row_only
    (db1 db2 : string -> UpdateData -> Eff.M World UserRow)
    (d : Claims) (req : Request) (args : list Arg) (w : World) :
  decoded (verifyToken req) = Some d ->
  (forall u w0, db1 (id d) u w0 = db2 (id d) u w0) ->
  route_with db1 req args w = route_with db2 req args w.
Proof.
  intros Hd Hsame. unfold PATCH. rewrite !protectedRoute_decision.
  unfold gate_decision. rewrite Hd.
  destruct (truthy_string (error (verifyToken req))); [reflexivity|].
  simpl.
  unfold profile_update, Eff.try_catch, profile_update_try, Eff.bind,
    Eff.lift, Eff.ret, req_user_id, req_json. simpl.
  destruct (JSON_parse (req_body req)) as [body|e]; [|reflexivity].
  destruct (updateSchema_parse is_email zod_message body) as [data|e];
    [|reflexivity].
  rewrite Hsame. reflexivity.
Qed.
End RouteFacts.

(** ** Further properties of the gate *)

Section GateExtras.
Context {Arg World : Type}.
Variable verifyToken : Request -> AuthResult.
Variable handler : Handler Arg World.

Lemma includes_In (roles : list string) (r : string) :
  includes roles r = true <-> In r roles.
Proof.
  induction roles as [|x roles IH]; simpl.
  - split; [discriminate | intros []].
  - destruct (String.eqb x r) eqn:E.
    + apply String.eqb_eq in E. split; auto.
    + apply String.eqb_neq in E. rewrite IH. split; [auto|].
      intros [H | H]; [contradiction | exact H].
Qed.

Lemma includes_ext (roles1 roles2 : list string) (r : string) :
  (In r roles1 <-> In r roles2) -> includes roles1 r = includes roles2 r.
Proof.
  intros H.
  destruct (includes roles1 r) eqn:E1; destruct (includes roles2 r) eqn:E2;
    try reflexivity.
  - apply includes_In in E1. apply H in E1. apply includes_In in E1. congruence.
  - apply includes_In in E2. apply H in E2. apply includes_In in E2. congruence.
Qed.

(** X8. An allow-list counts as the set of its members: order and repetition
    of the roles make no difference to what the guarded handler does. *)
Theorem allow_list_is_a_set
    (roles1 roles2 : list string) (req : Request)
    (args : list Arg) (w : World) :
  (forall r, In r roles1 <-> In r roles2) ->
  protectedRoute verifyToken handler (Some roles1) req args w =
  protectedRoute verifyToken handler (Some roles2) req args w.
Proof.
  intros H. rewrite !protectedRoute_decision.
  unfold gate_decision, role_allowed.
  destruct (decoded (verifyToken req)) as [d|]; [|reflexivity].
  rewrite (includes_ext roles1 roles2 (role d) (H (role d))). reflexivity.
Qed.

(** X9. Widening the allow-list, or dropping it, never locks out a caller: a
    request the gate passes under [roles1] is handled the same way under any
    list that contains [roles1] and under no list at all. *)
Theorem widening_keeps_access
    (roles1 roles2 : list string) (req : Request)
    (args : list Arg) (w : World) :
  (forall r, In r roles1 -> In r roles2) ->
  authorizes (verifyToken req) (Some roles1) = true ->
  protectedRoute verifyToken handler (Some roles2) req args w =
    protectedRoute verifyToken handler (Some roles1) req args w /\
  protectedRoute verifyToken handler None req args w =
    protectedRoute verifyToken handler (Some roles1) req args w.
Proof.
  intros Hsub Ha. apply authorizes_verifies in Ha.
  destruct Ha as [d [Hv Hr]]. simpl in Hr.
  assert (Hr2 : includes roles2 (role d) = true)
    by (apply includes_In, Hsub, includes_In, Hr).
  rewrite !protectedRoute_decision.
  rewrite (gate_decision_verified _ (Some roles1) d Hv).
  rewrite (gate_decision_verified _ (Some roles2) d Hv).
  rewrite (gate_decision_verified _ None d Hv).
  simpl. rewrite Hr, Hr2. split; reflexivity.
Qed.

(** X10. Guarding twice is guarding once: when the collaborator does not look at
    [req.user], a handler wrapped twice with the same allow-list behaves as
    the handler wrapped once. *)
Theorem protectedRoute_idempotent
    (allowedRoles : option (list string)) (req : Request)
    (args : list Arg) (w : World) :
  (forall r u, verifyToken (set_user r u) = verifyToken r) ->
  protectedRoute verifyToken
    (protectedRoute verifyToken handler allowedRoles) allowedRoles req args w =
  protectedRoute verifyToken handler allowedRoles req args w.
Proof.
  intros Hvt.
  rewrite (protectedRoute_decision verifyToken
             (protectedRoute verifyToken handler allowedRoles)).
  rewrite (protectedRoute_decision verifyToken handler allowedRoles req).
  destruct (gate_decision (verifyToken req) allowedRoles)
    as [d | reason code] eqn:Hg; [|reflexivity].
  rewrite protectedRoute_decision, Hvt, Hg. reflexivity.
Qed.
End GateExtras.

(** ** Properties of the edit-profile page *)

Lemma get_set_prop_same (k : string) (v : JSON) (props : list (string * JSON)) :
  get_prop k (set_prop k v props) = Some v.
Proof.
  induction props as [|[k' v'] rest IH]; simpl.
  - rewrite String.eqb_refl. reflexivity.
  - destruct (String.eqb k k') eqn:E; simpl.
    + rewrite String.eqb_refl. reflexivity.
    + rewrite E. exact IH.
Qed.

Lemma get_set_prop_other (k k' : string) (v : JSON)
    (props : list (string * JSON)) :
  k' <> k -> get_prop k' (set_prop k v props) = get_prop k' props.
Proof.
  intros Hne.
  assert (Hkk : String.eqb k' k = false) by (apply String.eqb_neq; exact Hne).
  induction props as [|[k0 v0] rest IH]; simpl.
  - rewrite Hkk. reflexivity.
  - destruct (String.eqb k k0) eqn:E; simpl.
    + apply String.eqb_eq in E. subst k0. rewrite Hkk. reflexivity.
    + destruct (String.eqb k' k0); [reflexivity | exact IH].
Qed.

(** X11. Typing into a field stores the value under the field's name and leaves
    no error showing for that field; every other field and every other
    error stays as it was, and so do [saving] and the router. *)
Theorem handleChange_field_and_error (name value : string) (p : Page) :
  let q := handleChange name value p in
  get_prop name (formData q) = Some (JStr value) /\
  truthy_json (get_prop name (errors q)) = false /\
  (forall k, k <> name ->
     get_prop k (formData q) = get_prop k (formData p) /\
     get_prop k (errors q) = get_prop k (errors p)) /\
  saving q = saving p /\ navigation q = navigation p.
Proof.
  unfold handleChange; simpl.
  split; [apply get_set_prop_same|]. split; [|split; [|split; reflexivity]].
  - destruct (truthy_json (get_prop name (errors p))) eqn:E.
    + rewrite get_set_prop_same. reflexivity.
    + exact E.
  - intros k Hk. split; [apply get_set_prop_other; exact Hk|].
    destruct (truthy_json (get_prop name (errors p)));
      [apply get_set_prop_other; exact Hk | reflexivity].
Qed.

Lemma errors_of_issues_snoc (issues : list Issue) (err : Issue) :
  errors_of_issues (issues ++ [err]) =
  add_issue (errors_of_issues issues) err.
Proof.
  unfold errors_of_issues. rewrite fold_left_app. reflexivity.
Qed.

(** X12. Every message the page shows after a failed validation is the message
    of an issue filed under that field; issues without a path, or under the
    empty name, are not shown. *)
Theorem errors_of_issues_sound (issues : list Issue) (k : string) (v : JSON) :
  get_prop k (errors_of_issues issues) = Some v ->
  k <> "" /\
  exists err rest,
    In err issues /\ issue_path err = k :: rest /\
    v = JStr (issue_message err).
Proof.
  induction issues as [|err issues IH] using rev_ind.
  - discriminate.
  - rewrite errors_of_issues_snoc. unfold add_issue.
    assert (Hold : get_prop k (errors_of_issues issues) = Some v ->
      k <> "" /\
      exists err0 rest,
        In err0 (issues ++ [err]) /\ issue_path err0 = k :: rest /\
        v = JStr (issue_message err0)).
    { intros H. destruct (IH H) as [Hk [err0 [rest [Hin [Hp Hv]]]]].
      split; [exact Hk|]. exists err0, rest.
      split; [apply in_or_app; left; exact Hin | split; assumption]. }
    destruct (issue_path err) as [|k0 rest] eqn:Hp; [exact Hold|].
    destruct (truthy_string (Some k0)) eqn:Ht; [|exact Hold].
    destruct (String.eqb k k0) eqn:E.
    + apply String.eqb_eq in E. subst k0.
      rewrite get_set_prop_same. intros H. inversion H; subst v.
      split.
      * intros ->. discriminate Ht.
      * exists err, rest.
        split; [apply in_or_app; right; left; reflexivity|].
        split; [exact Hp | reflexivity].
    + apply String.eqb_neq in E.
      rewrite get_set_prop_other by exact E. exact Hold.
Qed.

(** X13. When several issues are filed under one field, the page shows the
    message of the last. *)
Theorem errors_of_issues_last_wins
    (issues later : list Issue) (err : Issue) (k : string) (rest : list string) :
  issue_path err = k :: rest ->
  k <> "" ->
  (forall e, In e later -> forall r, issue_path e <> k :: r) ->
  get_prop k (errors_of_issues (issues ++ err :: later)) =
  Some (JStr (issue_message err)).
Proof.
  intros Hp Hk. induction later as [|e later IH] using rev_ind; intros Hl.
  - rewrite errors_of_issues_snoc. unfold add_issue. rewrite Hp.
    assert (Ht : truthy_string (Some k) = true).
    { simpl. destruct (String.eqb k "") eqn:E; [|reflexivity].
      apply String.eqb_eq in E. contradiction. }
    rewrite Ht. apply get_set_prop_same.
  - replace (issues ++ err :: later ++ [e])%list
      with ((issues ++ err :: later) ++ [e])%list
      by (rewrite <- app_assoc; reflexivity).
    rewrite errors_of_issues_snoc.
    assert (IH' : get_prop k (errors_of_issues (issues ++ err :: later)) =
                  Some (JStr (issue_message err))).
    { apply IH. intros e0 Hin. apply Hl. apply in_or_app. left. exact Hin. }
    unfold add_issue.
    destruct (issue_path e) as [|k0 r0] eqn:Hpe; [exact IH'|].
    destruct (truthy_string (Some k0)); [|exact IH'].
    rewrite get_set_prop_other; [exact IH'|].
    intros ->.
    assert (Hin : In e (later ++ [e]))
      by (apply in_or_app; right; left; reflexivity).
    exact (Hl e Hin r0 Hpe).
Qed.

Section EditProfilePageFacts.
Context {World : Type}.
Variable is_email : string -> bool.
Variable zod_message : JSON -> string.
Variable userSchema_issues : list (string * JSON) -> list Issue.
Variable send : JSON -> Eff.M World JSON.

Local Abbreviation client_parse := (userSchema_parse is_email userSchema_issues).
Local Abbreviation submit := (handleSubmit is_email userSchema_issues send).

Lemma z_string_min_inv (n : nat) (v : option JSON) (s : string) :
  z_string_min n v = Some s ->
  v = Some (JStr s) /\ Nat.leb n (String.length s) = true.
Proof.
  unfold z_string_min. destruct v as [[| | |s'| |]|]; try discriminate.
  destruct (Nat.leb n (String.length s')) eqn:E; [|discriminate].
  intros H. inversion H; subst. auto.
Qed.

Lemma userSchema_parse_inv (data : list (string * JSON)) (v : UserFormData) :
  client_parse data = Valid v ->
  z_string_min 2 (get_prop "name" data) = Some (form_name v) /\
  z_string_min 10 (get_prop "phone" data) = Some (form_phone v) /\
  z_email_or_empty is_email (get_prop "email" data) = Some (form_email v).
Proof.
  unfold userSchema_parse.
  destruct (z_string_min 2 (get_prop "name" data)) as [n|]; [|discriminate].
  destruct (z_string_min 10 (get_prop "phone" data)) as [p|]; [|discriminate].
  destruct (z_email_or_empty is_email (get_prop "email" data)) as [e|];
    [|discriminate].
  intros H. inversion H; subst. simpl. auto.
Qed.

(** X14. The page and the route agree on what is valid: whatever the page's
    schema accepts, the route's schema accepts once sent, with the same name
    and phone and with an empty email turned into [null]. *)
Theorem client_valid_form_passes_the_route
    (data : list (string * JSON)) (v : UserFormData) :
  client_parse data = Valid v ->
  exists accepted,
    updateSchema_parse is_email zod_message (payload_of v) = Normal accepted /\
    upd_name (updateData_of accepted) = Some (form_name v) /\
    upd_phone (updateData_of accepted) = Some (form_phone v) /\
    upd_email (updateData_of accepted) =
      match form_email v with
      | Some e => if String.eqb e "" then None else Some e
      | None => None
      end.
Proof.
  intros H. apply userSchema_parse_inv in H. destruct H as [Hn [Hp He]].
  apply z_string_min_inv in Hn. destruct Hn as [_ Hn].
  apply z_string_min_inv in Hp. destruct Hp as [_ Hp].
  assert (Hname : truthy_string (Some (form_name v)) = true).
  { simpl. destruct (form_name v) as [|c s]; [discriminate Hn | reflexivity]. }
  unfold payload_of, updateSchema_parse.
  assert (Hge : forall tail,
    get_prop "email"
      ([("name", JStr (form_name v)); ("phone", JStr (form_phone v))]
       ++ tail)%list = get_prop "email" tail) by reflexivity.
  rewrite Hge.
  change (get_prop "name" _) with (Some (JStr (form_name v))).
  change (get_prop "phone" _) with (Some (JStr (form_phone v))).
  unfold z_string_min_optional. rewrite Hn, Hp.
  unfold z_email_or_empty in He.
  destruct (form_email v) as [e|] eqn:Hfe.
  - destruct (get_prop "email" data) as [[| | |s| |]|]; try discriminate.
    simpl get_prop. unfold z_email.
    destruct (is_email s) eqn:Em.
    + inversion He; subst e. rewrite Em, Hname. simpl.
      eexists. split; [reflexivity|]. simpl. auto.
    + destruct (String.eqb s "") eqn:Es; [|discriminate].
      inversion He; subst e.
      destruct (is_email ""); rewrite Hname; simpl;
        eexists; (split; [reflexivity|]); simpl; auto.
  - simpl get_prop. unfold z_email. rewrite Hname. simpl.
    eexists. split; [reflexivity|]. simpl. auto.
Qed.

(** X15. Submitting always ends with [saving] off and the form as typed, and
    what it leaves in [errors] owes nothing to the errors shown before. *)
Theorem handleSubmit_resets (p : Page) (w : World)
    (olderrors : list (string * JSON)) (b : bool) :
  saving (fst (submit p w)) = false /\
  formData (fst (submit p w)) = formData p /\
  submit {| formData := formData p; errors := olderrors; saving := b;
            navigation := navigation p |} w
  = submit p w.
Proof.
  unfold handleSubmit; simpl.
  destruct (submit_attempt is_email userSchema_issues send
              {| formData := formData p; errors := []; saving := true;
                 navigation := navigation p |} w) as [q w'] eqn:E.
  simpl. split; [reflexivity|]. split; [|reflexivity].
  revert E. unfold submit_attempt, with_errors; simpl.
  destruct (client_parse (formData p)) as [v | issues].
  - destruct (send (payload_of v) w) as [[data | e] w1].
    + destruct (member "success" data) as [success | e].
      * destruct (truthy_json success).
        -- intros E; inversion E; reflexivity.
        -- destruct (member "message" data);
             intros E; inversion E; reflexivity.
      * intros E; inversion E; reflexivity.
    + intros E; inversion E; reflexivity.
  - intros E; inversion E; reflexivity.
Qed.

(** X16. A form the page's schema rejects is not sent: the world is untouched,
    the router is not called, and the errors shown are those of the
    issues. *)
Theorem handleSubmit_invalid_form_is_not_sent
    (p : Page) (w : World) (issues : list Issue) :
  client_parse (formData p) = ZodIssues issues ->
  submit p w =
  ({| formData := formData p;
      errors := errors_of_issues issues;
      saving := false;
      navigation := navigation p |}, w).
Proof.
  intros H. unfold handleSubmit, submit_attempt; simpl. rewrite H. reflexivity.
Qed.

(** X17. The page goes to [/profile] exactly when the form is valid and the
    reply to the request has a truthy [success]; it then pushes [/profile],
    refreshes, and shows no error. *)
Theorem handleSubmit_navigates_iff_success (p : Page) (w : World) :
  let q := fst (submit p w) in
  (navigation q <> navigation p <->
   exists v data w',
     client_parse (formData p) = Valid v /\
     send (payload_of v) w = (Normal data, w') /\
     exists success,
       member "success" data = Normal success /\
       truthy_json success = true) /\
  (navigation q <> navigation p ->
   navigation q = (navigation p ++ [Push "/profile"; Refresh])%list /\
   errors q = []).
Proof.
  assert (Hgrow : forall l : list RouterAction,
            (l ++ [Push "/profile"; Refresh])%list <> l).
  { intros l H. apply (f_equal (@List.length _)) in H.
    rewrite length_app in H. simpl in H. lia. }
  unfold handleSubmit, submit_attempt, with_errors; simpl.
  destruct (client_parse (formData p)) as [v | issues] eqn:Hv; simpl.
  - destruct (send (payload_of v) w) as [[data | e] w1] eqn:Hs; simpl.
    + destruct (member "success" data) as [success | e] eqn:Hm; simpl.
      * destruct (truthy_json success) eqn:Ht; simpl.
        -- split; [|intros _; split; reflexivity].
           split; [intros _ | intros _; apply Hgrow].
           exists v, data, w1. split; [reflexivity|].
           split; [first [exact Hs | reflexivity]|].
           exists success.
           split; [first [exact Hm | reflexivity] | exact Ht].
        -- assert (Hno : ~ exists v0 data0 w0,
             Valid v = Valid v0 /\
             send (payload_of v0) w = (Normal data0, w0) /\
             exists s0, member "success" data0 = Normal s0 /\
                        truthy_json s0 = true).
           { intros [v0 [d0 [w0 [Hv0 [Hs0 [s0 [Hm0 Ht0]]]]]]].
             inversion Hv0; subst v0. rewrite Hs in Hs0.
             inversion Hs0; subst d0 w0. rewrite Hm in Hm0.
             inversion Hm0; subst s0. congruence. }
           destruct (member "message" data); simpl;
             (split; [split; [intros H; exfalso; apply H; reflexivity
                             | intros H; exfalso; exact (Hno H)]
                     | intros H; exfalso; apply H; reflexivity]).
      * split; [split|]; try (intros H; exfalso; apply H; reflexivity).
        intros [v0 [d0 [w0 [Hv0 [Hs0 [s0 [Hm0 Ht0]]]]]]].
        inversion Hv0; subst v0. rewrite Hs in Hs0.
        inversion Hs0; subst d0 w0. rewrite Hm in Hm0. discriminate Hm0.
    + split; [split|]; try (intros H; exfalso; apply H; reflexivity).
      intros [v0 [d0 [w0 [Hv0 [Hs0 _]]]]].
      inversion Hv0; subst v0. rewrite Hs in Hs0. discriminate Hs0.
  - split; [split|]; try (intros H; exfalso; apply H; reflexivity).
    intros [v0 [d0 [w0 [Hv0 _]]]]. discriminate Hv0.
Qed.
End EditProfilePageFacts.

Section PageAndRoute.
Context {World : Type}.
Variable is_email : string -> bool.
Variable userSchema_issues : list (string * JSON) -> list Issue.
Variable send : JSON -> Eff.M World JSON.

Local Abbreviation client_parse := (userSchema_parse is_email userSchema_issues).
Local Abbreviation submit := (handleSubmit is_email userSchema_issues send).

(** X18. What the page makes of the replies of the gated route, whatever their
    status: the route's failure reply shows "Update failed", a rejection by
    the gate shows the gate's message ("Update failed" if it is empty), and
    the route's success reply sends the page to [/profile]. *)
Theorem page_shows_the_routes_reply
    (p : Page) (v : UserFormData) (w w' : World) (reply : JSON) :
  client_parse (formData p) = Valid v ->
  send (payload_of v) w = (Normal reply, w') ->
  (forall e : Exn,
     reply = res_body (update_failed e) ->
     submit p w =
     ({| formData := formData p;
         errors := [("submit", JStr "Update failed")];
         saving := false;
         navigation := navigation p |}, w')) /\
  (forall reason code,
     reply = res_body (rejection reason code) ->
     submit p w =
     ({| formData := formData p;
         errors :=
           [("submit",
             JStr (if String.eqb reason "" then "Update failed" else reason))];
         saving := false;
         navigation := navigation p |}, w')) /\
  (forall row : UserRow,
     reply = res_body (update_succeeded row) ->
     submit p w =
     ({| formData := formData p;
         errors := [];
         saving := false;
         navigation := (navigation p ++ [Push "/profile"; Refresh])%list |},
      w')).
Proof.
  intros Hv Hs.
  unfold handleSubmit, submit_attempt, with_errors; simpl.
  rewrite Hv, Hs.
  split; [|split].
  - intros e ->. reflexivity.
  - intros reason code ->. simpl.
    destruct (String.eqb reason ""); reflexivity.
  - intros row ->. reflexivity.
Qed.
End PageAndRoute.

(** ** Instances of the further properties *)

Import PageScenario.

Lemma updateSchema_reads_three_properties_witness :
  updateSchema_parse stub_is_email stub_zod_message
    (JObj [("role", JStr "ADMIN"); ("name", JStr "Asha")]) =
  Normal {| in_name := Some "Asha"; in_phone := None;
            in_email := EmailUndefined |}.
Proof.
  exact (updateSchema_reads_three_properties stub_is_email stub_zod_message
           [("name", JStr "Asha")]
           [("role", JStr "ADMIN"); ("name", JStr "Asha")]
           _ eq_refl eq_refl eq_refl eq_refl).
Defined.

Lemma update_data_is_valid_witness :
  let u := updateData_of {| in_name := Some "Asha"; in_phone := None;
                            in_email := EmailStr "" |} in
  (forall n, upd_name u = Some n -> (2 <= String.length n)%nat) /\
  (forall p, upd_phone u = Some p -> (10 <= String.length p)%nat) /\
  (upd_name u <> None \/ upd_phone u <> None) /\
  (forall e, upd_email u = Some e -> e <> "" /\ stub_is_email e = true).
Proof.
  exact (update_data_is_valid stub_is_email stub_zod_message
           (JObj [("name", JStr "Asha"); ("email", JStr "")]) _ eq_refl).
Defined.

Lemma update_needs_name_or_phone_witness :
  updateSchema_parse stub_is_email stub_zod_message
    (JObj [("email", JStr "asha@example.com")]) =
  Throw (ZodError stub_zod_message (JObj [("email", JStr "asha@example.com")])).
Proof.
  exact (update_needs_name_or_phone stub_is_email stub_zod_message
           [("email", JStr "asha@example.com")] eq_refl eq_refl).
Defined.

Lemma update_rejects_present_invalid_field_witness :
  updateSchema_parse stub_is_email stub_zod_message
    (JObj [("name", JNull); ("phone", JStr "9876543210")]) =
  Throw (ZodError stub_zod_message
           (JObj [("name", JNull); ("phone", JStr "9876543210")])).
Proof.
  refine (update_rejects_present_invalid_field stub_is_email stub_zod_message
            [("name", JNull); ("phone", JStr "9876543210")] JNull
            (or_introl (conj eq_refl _))).
  intros s H. discriminate H.
Defined.

Lemma cleared_email_is_null_witness :
  upd_email (updateData_of {| in_name := Some "Asha"; in_phone := None;
                              in_email := EmailStr "" |}) = None.
Proof.
  exact (cleared_email_is_null stub_is_email stub_zod_message
           [("name", JStr "Asha"); ("email", JStr "")] _
           (or_intror (or_intror eq_refl)) eq_refl).
Defined.

Lemma PATCH_updates_the_callers_row_witness :
  PATCH stub_JSON_parse stub_is_email stub_zod_message stub_update stub_del
    stub_console (answering customer_u1) new_name_request ([] : list unit) []
  = (Normal
       (update_succeeded
          (stub_row "u1" {| upd_name := Some "Asha"; upd_phone := None;
                            upd_email := None |})),
     (set_user new_name_request (mkUser "u1" "CUSTOMER"), ["del"; "update"])).
Proof.
  exact (proj1
           (PATCH_updates_the_callers_row stub_JSON_parse stub_is_email
              stub_zod_message stub_del stub_console (answering customer_u1)
              stub_update (mkClaims "u1" "CUSTOMER") new_name_request []
              (JObj [("name", JStr "Asha"); ("email", JStr "")])
              {| in_name := Some "Asha"; in_phone := None;
                 in_email := EmailStr "" |}
              _ 1 [] ["update"] ["del"; "update"]
              (conj eq_refl eq_refl) eq_refl eq_refl eq_refl eq_refl)).
Defined.

Lemma PATCH_depends_on_the_callers_row_only_witness :
  PATCH stub_JSON_parse stub_is_email stub_zod_message stub_update stub_del
    stub_console (answering customer_u1) new_name_request ([] : list unit) []
  = PATCH stub_JSON_parse stub_is_email stub_zod_message
      (fun userId data =>
         if String.eqb userId "u1" then stub_update userId data
         else stub_update_missing userId data)
      stub_del stub_console (answering customer_u1) new_name_request
      ([] : list unit) [].
Proof.
  exact (PATCH_depends_on_the_callers_row_only stub_JSON_parse stub_is_email
           stub_zod_message stub_del stub_console (answering customer_u1)
           stub_update
           (fun userId data =>
              if String.eqb userId "u1" then stub_update userId data
              else stub_update_missing userId data)
           (mkClaims "u1" "CUSTOMER") new_name_request [] [] eq_refl
           (fun u w0 => eq_refl)).
Defined.

Lemma allow_list_is_a_set_witness :
  protectedRoute (answering customer_u1) ok_handler
    (Some ["ADMIN"; "CUSTOMER"]) a_request [] tt =
  protectedRoute (answering customer_u1) ok_handler
    (Some ["CUSTOMER"; "ADMIN"; "CUSTOMER"]) a_request [] tt.
Proof.
  refine (allow_list_is_a_set (answering customer_u1) ok_handler
            ["ADMIN"; "CUSTOMER"] ["CUSTOMER"; "ADMIN"; "CUSTOMER"]
            a_request [] tt _).
  intros r. simpl. tauto.
Defined.

Lemma widening_keeps_access_witness :
  protectedRoute (answering customer_u1) ok_handler
    (Some ["CUSTOMER"; "ADMIN"]) a_request [] tt =
    protectedRoute (answering customer_u1) ok_handler
      (Some ["CUSTOMER"]) a_request [] tt /\
  protectedRoute (answering customer_u1) ok_handler None a_request [] tt =
    protectedRoute (answering customer_u1) ok_handler
      (Some ["CUSTOMER"]) a_request [] tt.
Proof.
  refine (widening_keeps_access (answering customer_u1) ok_handler
            ["CUSTOMER"] ["CUSTOMER"; "ADMIN"] a_request [] tt _ eq_refl).
  intros r. simpl. tauto.
Defined.

Lemma protectedRoute_idempotent_witness :
  protectedRoute stub_verifyToken
    (protectedRoute stub_verifyToken ok_handler (Some ["ADMIN"]))
    (Some ["ADMIN"]) admin_request [] tt =
  protectedRoute stub_verifyToken ok_handler (Some ["ADMIN"])
    admin_request [] tt.
Proof.
  exact (protectedRoute_idempotent stub_verifyToken ok_handler
           (Some ["ADMIN"]) admin_request [] tt (fun r u => eq_refl)).
Defined.

Lemma handleChange_field_and_error_witness :
  get_prop "email"
    (formData (handleChange "name" "Asha K" a_page)) = Some (JStr "") /\
  get_prop "email" (errors (handleChange "name" "Asha K" a_page)) = None.
Proof.
  refine (proj1 (proj2 (proj2
            (handleChange_field_and_error "name" "Asha K" a_page)))
            "email" _).
  discriminate.
Defined.

Lemma errors_of_issues_sound_witness :
  "name" <> "" /\
  exists err rest,
    In err [name_issue] /\ issue_path err = "name" :: rest /\
    JStr "Name must be at least 2 characters" = JStr (issue_message err).
Proof.
  exact (errors_of_issues_sound [name_issue] "name" _ eq_refl).
Defined.

Lemma errors_of_issues_last_wins_witness :
  get_prop "name"
    (errors_of_issues
       [mkIssue ["name"] "Required"; name_issue; mkIssue [] "Invalid input"])
  = Some (JStr "Name must be at least 2 characters").
Proof.
  refine (errors_of_issues_last_wins [mkIssue ["name"] "Required"]
            [mkIssue [] "Invalid input"] name_issue "name" [] eq_refl _ _).
  - discriminate.
  - intros e [<- | []] r. simpl. discriminate.
Defined.

Lemma client_valid_form_passes_the_route_witness :
  exists accepted,
    updateSchema_parse stub_is_email stub_zod_message
      (payload_of (mkUserFormData "Asha" "9876543210" (Some "")))
      = Normal accepted /\
    upd_name (updateData_of accepted) = Some "Asha" /\
    upd_phone (updateData_of accepted) = Some "9876543210" /\
    upd_email (updateData_of accepted) = None.
Proof.
  exact (client_valid_form_passes_the_route stub_is_email stub_zod_message
           stub_issues a_form _ eq_refl).
Defined.

Lemma handleSubmit_invalid_form_is_not_sent_witness :
  handleSubmit stub_is_email stub_issues stub_send_ok a_short_page [] =
  ({| formData := a_short_form;
      errors := [("name", JStr "Name must be at least 2 characters")];
      saving := false;
      navigation := [] |}, []).
Proof.
  exact (handleSubmit_invalid_form_is_not_sent stub_is_email stub_issues
           stub_send_ok a_short_page [] [name_issue] eq_refl).
Defined.

Lemma handleSubmit_navigates_iff_success_witness :
  navigation (fst (handleSubmit stub_is_email stub_issues stub_send_ok
                     a_page [])) = [Push "/profile"; Refresh] /\
  errors (fst (handleSubmit stub_is_email stub_issues stub_send_ok
                 a_page [])) = [].
Proof.
  refine (proj2 (handleSubmit_navigates_iff_success stub_is_email stub_issues
                   stub_send_ok a_page []) _).
  simpl. discriminate.
Defined.

Lemma page_shows_the_routes_reply_witness :
  handleSubmit stub_is_email stub_issues stub_send_failed a_page [] =
  ({| formData := a_form;
      errors := [("submit", JStr "Update failed")];
      saving := false;
      navigation := [] |}, ["PATCH"]).
Proof.
  exact (proj1
           (page_shows_the_routes_reply stub_is_email stub_issues
              stub_send_failed a_page _ [] ["PATCH"] _ eq_refl eq_refl)
           (ZodError stub_zod_message JNull) eq_refl).
Defined.
